(** * Support-ticket UI: creation dialog and ticket list page

    A shallow embedding of the two React components of the repository,
    [CreateTicketDialog] (the creation form) and [Tickets] (the list
    page), together with the properties their specification states.

    Event handlers are written in a small monad that threads the
    component's React state and a chronological trace of the effects a
    handler performs (notifications, console output, backend requests,
    calls of the callbacks received as props).  The backend client, the
    clock and the UUID generator are the environment of a handler: the
    client resolves every request to a [{ data, error }] object, which is
    how both components consume it. *)

From Stdlib Require Import List String Ascii Arith NArith Bool Lia Sorted.
Import ListNotations.

Set Implicit Arguments.

(** ** JavaScript strings *)

Module JsString.

(** A string is its sequence of UTF-16 code units. *)
Definition jsstring := list N.

(** The code units of an ASCII literal of the source. *)
Definition js (s : string) : jsstring :=
  List.map N_of_ascii (list_ascii_of_string s).

Definition eqb (a b : jsstring) : bool :=
  if list_eq_dec N.eq_dec a b then true else false.

(** Truthiness of a string: only the empty string is falsy. *)
Definition truthy (s : jsstring) : bool :=
  match s with [] => false | _ :: _ => true end.

(** [a || b] on strings. *)
Definition or_else (a b : jsstring) : jsstring :=
  if truthy a then a else b.

(** [a || b] where [a] may be [undefined] or [null]. *)
Definition opt_or_else (a : option jsstring) (b : jsstring) : jsstring :=
  match a with
  | Some s => or_else s b
  | None => b
  end.

(** The code units [String.prototype.trim] strips: ECMAScript's
    WhiteSpace and LineTerminator productions. *)
Definition is_ws (c : N) : bool :=
  (   (c =? 0x0009) || (c =? 0x000A) || (c =? 0x000B) || (c =? 0x000C)
   || (c =? 0x000D) || (c =? 0x0020) || (c =? 0x00A0) || (c =? 0x1680)
   || ((0x2000 <=? c) && (c <=? 0x200A))
   || (c =? 0x2028) || (c =? 0x2029) || (c =? 0x202F) || (c =? 0x205F)
   || (c =? 0x3000) || (c =? 0xFEFF))%N.

Fixpoint trimStart (s : jsstring) : jsstring :=
  match s with
  | [] => []
  | c :: rest => if is_ws c then trimStart rest else s
  end.

Definition trimEnd (s : jsstring) : jsstring :=
  rev (trimStart (rev s)).

Definition trim (s : jsstring) : jsstring :=
  trimEnd (trimStart s).

End JsString.

Import JsString.

(** ** Data exchanged with the backend and shown to the user *)

(** The toast's [variant]: given as ["destructive"] or left out. *)
Inductive Variant := VariantDefault | VariantDestructive.

Record Notification := {
  n_title : jsstring;
  n_description : jsstring;
  n_variant : Variant
}.

(** The value of the dialog's [category] state,
    ['Account' | 'Orders' | 'Other' | '']. *)
Inductive Category := CatUnset | Account | Orders | Other.

Definition category_str (c : Category) : jsstring :=
  match c with
  | CatUnset => js ""
  | Account => js "Account"
  | Orders => js "Orders"
  | Other => js "Other"
  end.

Definition category_set (c : Category) : bool :=
  truthy (category_str c).

(** An error object; [message] may be missing. *)
Record JsError := { message : option jsstring }.

(** What an awaited backend request resolves to. *)
Record Reply (A : Type) := {
  data : option A;
  error : option JsError
}.

(** The actor provided by the authentication context. *)
Record AuthUser := {
  username : jsstring;
  email : option jsstring;
  role : option jsstring
}.

Record Product := {
  p_id : jsstring;
  p_name : jsstring
}.

(** The joined [products(name)] of a ticket row. *)
Record ProductName := { name : jsstring }.

(** [ticketData] of [handleSubmit]. *)
Module TicketData.
Record t := {
  id : jsstring;
  user_id : jsstring;
  title : jsstring;
  description : jsstring;
  category : Category;
  product_id : option jsstring;
  status : jsstring;
  created_at : jsstring;
  updated_at : jsstring
}.
End TicketData.

(** [userData] of [handleSubmit]. *)
Module UserData.
Record t := {
  id : jsstring;
  username : jsstring;
  email : jsstring;
  role : jsstring
}.
End UserData.

(** A row of the list page's query: a ticket joined with its product's
    name and the count of its replies.  Status and category are whatever
    strings the backend returns. *)
Record ReplyCount := { count : option N }.

Module TicketRow.
Record t := {
  id : jsstring;
  title : jsstring;
  description : jsstring;
  category : jsstring;
  status : jsstring;
  products : option ProductName;
  ticket_replies : option (list ReplyCount);
  created_at : jsstring
}.
End TicketRow.

(** A [select] request: table, columns, equality filters, ordering. *)
Record Query := {
  q_table : jsstring;
  q_columns : list jsstring;
  q_eq : list (jsstring * bool);
  q_order : option (jsstring * bool)   (* column, ascending *)
}.

(** ** Effects *)

Inductive Event :=
| PreventDefault
| Toast (n : Notification)
| ConsoleLog (msg : jsstring)
| ConsoleError (msg : jsstring) (e : JsError)
| InsertTicket (t : TicketData.t)
| UpsertUser (u : UserData.t) (onConflict : jsstring) (ignoreDuplicates : bool)
| Select (q : Query)
| OnOpenChange (b : bool)
| OnTicketCreated.

Definition is_request (e : Event) : bool :=
  match e with
  | InsertTicket _ | UpsertUser _ _ _ | Select _ => true
  | _ => false
  end.

Definition is_insert (e : Event) : bool :=
  match e with InsertTicket _ => true | _ => false end.

Definition is_upsert (e : Event) : bool :=
  match e with UpsertUser _ _ _ => true | _ => false end.

Definition is_refresh (e : Event) : bool :=
  match e with OnTicketCreated => true | _ => false end.

Definition is_open_change (e : Event) : bool :=
  match e with OnOpenChange _ => true | _ => false end.

Fixpoint toasts (tr : list Event) : list Notification :=
  match tr with
  | [] => []
  | Toast n :: rest => n :: toasts rest
  | _ :: rest => toasts rest
  end.

Fixpoint inserts (tr : list Event) : list TicketData.t :=
  match tr with
  | [] => []
  | InsertTicket t :: rest => t :: inserts rest
  | _ :: rest => inserts rest
  end.

(** The environment of a handler. *)
Record Env := {
  now_iso : nat -> jsstring;      (* [new Date().toISOString()], k-th read *)
  randomUUID : nat -> jsstring;   (* [crypto.randomUUID()], k-th call *)
  insert_reply : TicketData.t -> Reply jsstring;
  upsert_reply : UserData.t -> Reply unit;
  products_reply : Reply (list Product);
  tickets_reply : Reply (list TicketRow.t)
}.

(** The component state [S] together with what the handler did so far. *)
Record Machine (S : Type) := {
  m_state : S;
  m_trace : list Event;
  m_clock_reads : nat;
  m_uuid_calls : nat
}.

Inductive Outcome (A : Type) :=
| Returned (a : A)
| Thrown (e : JsError).

Arguments Thrown {A} e.

Module Handler.

Definition M (S A : Type) : Type :=
  Env -> Machine S -> Outcome A * Machine S.

Definition ret {S A} (a : A) : M S A :=
  fun _ m => (Returned a, m).

Definition bind {S A B} (c : M S A) (k : A -> M S B) : M S B :=
  fun env m =>
    match c env m with
    | (Returned a, m') => k a env m'
    | (Thrown e, m') => (Thrown e, m')
    end.

Definition throw {S A} (e : JsError) : M S A :=
  fun _ m => (Thrown e, m).

(** [try { body } catch (e) { handler e } finally { cleanup }] *)
Definition try_catch_finally {S}
    (body : M S unit) (handler : JsError -> M S unit) (cleanup : M S unit)
  : M S unit :=
  fun env m =>
    let r :=
      match body env m with
      | (Returned a, m') => (Returned a, m')
      | (Thrown e, m') => handler e env m'
      end in
    match cleanup env (snd r) with
    | (Returned _, m'') => (fst r, m'')
    | (Thrown e, m'') => (Thrown e, m'')
    end.

(** [try { body } catch (e) { handler e }] *)
Definition try_catch {S} (body : M S unit) (handler : JsError -> M S unit)
  : M S unit :=
  try_catch_finally body handler (ret tt).

Definition emit {S} (e : Event) : M S unit :=
  fun _ m =>
    (Returned tt,
     {| m_state := m_state m;
        m_trace := m_trace m ++ [e];
        m_clock_reads := m_clock_reads m;
        m_uuid_calls := m_uuid_calls m |}).

Definition modify {S} (f : S -> S) : M S unit :=
  fun _ m =>
    (Returned tt,
     {| m_state := f (m_state m);
        m_trace := m_trace m;
        m_clock_reads := m_clock_reads m;
        m_uuid_calls := m_uuid_calls m |}).

Definition new_Date_toISOString {S} : M S jsstring :=
  fun env m =>
    (Returned (now_iso env (m_clock_reads m)),
     {| m_state := m_state m;
        m_trace := m_trace m;
        m_clock_reads := Datatypes.S (m_clock_reads m);
        m_uuid_calls := m_uuid_calls m |}).

Definition crypto_randomUUID {S} : M S jsstring :=
  fun env m =>
    (Returned (randomUUID env (m_uuid_calls m)),
     {| m_state := m_state m;
        m_trace := m_trace m;
        m_clock_reads := m_clock_reads m;
        m_uuid_calls := Datatypes.S (m_uuid_calls m) |}).

(** An awaited request: it is issued, then resolves to the reply. *)
Definition request {S A} (e : Event) (reply : Env -> Reply A)
  : M S (Reply A) :=
  fun env m =>
    match emit e env m with
    | (_, m') => (Returned (reply env), m')
    end.

Definition toast {S} (n : Notification) : M S unit := emit (Toast n).

(** Runs a handler from the component state [s]. *)
Definition run {S A} (c : M S A) (env : Env) (s : S)
  : Outcome A * Machine S :=
  c env {| m_state := s; m_trace := []; m_clock_reads := 0;
           m_uuid_calls := 0 |}.

Definition state_after {S A} (c : M S A) (env : Env) (s : S) : S :=
  m_state (snd (run c env s)).

Definition trace_of {S A} (c : M S A) (env : Env) (s : S) : list Event :=
  m_trace (snd (run c env s)).

End Handler.

Import Handler.

Declare Scope handler_scope.
Delimit Scope handler_scope with handler.

Notation "x <- c ;; k" := (bind c (fun x => k))
  (at level 100, c at next level, right associativity) : handler_scope.
Notation "c ;; k" := (bind c (fun _ => k))
  (at level 100, right associativity) : handler_scope.

Open Scope handler_scope.

(** ** The creation dialog *)

Module CreateTicketDialog.

(** The [useState] cells of the component. *)
Record State := {
  title : jsstring;
  description : jsstring;
  category : Category;
  productId : jsstring;
  products : list Product;
  loading : bool
}.

Definition initial : State :=
  {| title := js ""; description := js ""; category := CatUnset;
     productId := js ""; products := []; loading := false |}.

Definition setTitle (v : jsstring) : M State unit :=
  modify (fun s =>
    {| title := v; description := description s; category := category s;
       productId := productId s; products := products s;
       loading := loading s |}).

Definition setDescription (v : jsstring) : M State unit :=
  modify (fun s =>
    {| title := title s; description := v; category := category s;
       productId := productId s; products := products s;
       loading := loading s |}).

Definition setCategory (v : Category) : M State unit :=
  modify (fun s =>
    {| title := title s; description := description s; category := v;
       productId := productId s; products := products s;
       loading := loading s |}).

Definition setProductId (v : jsstring) : M State unit :=
  modify (fun s =>
    {| title := title s; description := description s;
       category := category s; productId := v; products := products s;
       loading := loading s |}).

Definition setProducts (v : list Product) : M State unit :=
  modify (fun s =>
    {| title := title s; description := description s;
       category := category s; productId := productId s; products := v;
       loading := loading s |}).

Definition setLoading (v : bool) : M State unit :=
  modify (fun s =>
    {| title := title s; description := description s;
       category := category s; productId := productId s;
       products := products s; loading := v |}).

Definition products_query : Query :=
  {| q_table := js "products";
     q_columns := [js "id"; js "name"];
     q_eq := [(js "available", true)];
     q_order := Some (js "name", true) |}.

Definition fetchProducts : M State unit :=
  try_catch
    (r <- request (Select products_query) products_reply ;;
     (match error r with
      | Some e => throw e
      | None => ret tt
      end) ;;
     setProducts (match data r with Some d => d | None => [] end))
    (fun e => emit (ConsoleError (js "Error fetching products:") e)).

(** The effect run when the [open] prop changes. *)
Definition on_open (open : bool) : M State unit :=
  if open then fetchProducts else ret tt.

Definition validation_toast : Notification :=
  {| n_title := js "Error";
     n_description := js "Please fill in all required fields.";
     n_variant := VariantDestructive |}.

Definition login_toast : Notification :=
  {| n_title := js "Error";
     n_description := js "You must be logged in to create a ticket.";
     n_variant := VariantDestructive |}.

Definition success_toast : Notification :=
  {| n_title := js "Success";
     n_description := js "Your ticket has been created successfully.";
     n_variant := VariantDefault |}.

Definition failure_toast (e : JsError) : Notification :=
  {| n_title := js "Error";
     n_description :=
       js "Failed to create ticket: "
       ++ opt_or_else (message e) (js "Please try again.");
     n_variant := VariantDestructive |}.

Definition userData_of (user_id : jsstring) (user : AuthUser) : UserData.t :=
  {| UserData.id := user_id;
     UserData.username := username user;
     UserData.email :=
       opt_or_else (email user) (username user ++ js "@local.app");
     UserData.role := opt_or_else (role user) (js "customer") |}.

(** [handleSubmit], closed over the [user] of the authentication context
    and the state [c] of the render that installed it. *)
Definition handleSubmit (user : option AuthUser) (c : State)
  : M State unit :=
  emit PreventDefault ;;
  if negb (truthy (trim (title c)))
     || negb (truthy (trim (description c)))
     || negb (category_set (category c))
  then toast validation_toast
  else
    match user with
    | None => toast login_toast
    | Some user =>
        setLoading true ;;
        try_catch_finally
          (ticket_id <- crypto_randomUUID ;;
           local_user_id <- crypto_randomUUID ;;
           created <- new_Date_toISOString ;;
           updated <- new_Date_toISOString ;;
           let ticketData :=
             {| TicketData.id := ticket_id;
                TicketData.user_id := local_user_id;
                TicketData.title := trim (title c);
                TicketData.description := trim (description c);
                TicketData.category := category c;
                TicketData.product_id :=
                  if truthy (productId c) then Some (productId c)
                  else None;
                TicketData.status := js "open";
                TicketData.created_at := created;
                TicketData.updated_at := updated |} in
           emit (ConsoleLog (js "Creating ticket with data:")) ;;
           r <- request (InsertTicket ticketData)
                  (fun env => insert_reply env ticketData) ;;
           (match error r with
            | Some ticketError =>
                emit (ConsoleError (js "Ticket creation error:")
                        ticketError) ;;
                throw ticketError
            | None => ret tt
            end) ;;
           emit (ConsoleLog (js "Ticket created successfully:")) ;;
           let userData :=
             userData_of (TicketData.user_id ticketData) user in
           _ <- request (UpsertUser userData (js "id") true)
                  (fun env => upsert_reply env userData) ;;
           toast success_toast ;;
           setTitle (js "") ;;
           setDescription (js "") ;;
           setCategory CatUnset ;;
           setProductId (js "") ;;
           emit (OnOpenChange false) ;;
           emit OnTicketCreated)
          (fun e =>
             emit (ConsoleError (js "Error creating ticket:") e) ;;
             toast (failure_toast e))
          (setLoading false)
    end.

Definition handleCategoryChange (value : jsstring) : M State unit :=
  if eqb value (js "") then setCategory CatUnset
  else if eqb value (js "Account") then setCategory Account
  else if eqb value (js "Orders") then setCategory Orders
  else if eqb value (js "Other") then setCategory Other
  else ret tt.

(** [onValueChange] of the product selector. *)
Definition handleProductChange (value : jsstring) : M State unit :=
  setProductId (if eqb value (js "none") then js "" else value).

(** The values offered by the product selector. *)
Definition product_options (s : State) : list jsstring :=
  js "none" :: List.map p_id (products s).

(** Both buttons of the form are disabled while a request is pending. *)
Definition buttons_disabled (s : State) : bool := loading s.

(** A submission of the form rendered from state [s]. *)
Definition submit (user : option AuthUser) (env : Env) (s : State)
  : Outcome unit * Machine State :=
  run (handleSubmit user s) env s.

(** The ticket record a submission from [s] builds. *)
Definition ticketData_of (env : Env) (s : State) : TicketData.t :=
  {| TicketData.id := randomUUID env 0;
     TicketData.user_id := randomUUID env 1;
     TicketData.title := trim (title s);
     TicketData.description := trim (description s);
     TicketData.category := category s;
     TicketData.product_id :=
       if truthy (productId s) then Some (productId s) else None;
     TicketData.status := js "open";
     TicketData.created_at := now_iso env 0;
     TicketData.updated_at := now_iso env 1 |}.

End CreateTicketDialog.

(** ** Property lookup on an object literal *)

Module JsObject.

(** The values a property lookup on the objects below can give. *)
Inductive JsValue :=
| VUndefined
| VString (s : jsstring)
| VFunction (fname : jsstring)
| VObject (oname : jsstring).

Definition truthy_value (v : JsValue) : bool :=
  match v with
  | VUndefined => false
  | VString s => truthy s
  | VFunction _ | VObject _ => true
  end.

(** [a || b] *)
Definition value_or (a b : JsValue) : JsValue :=
  if truthy_value a then a else b.

Fixpoint own_property (props : list (jsstring * JsValue)) (key : jsstring)
  : option JsValue :=
  match props with
  | [] => None
  | (k, v) :: rest => if eqb k key then Some v else own_property rest key
  end.

(** What an object created by a literal inherits from
    [Object.prototype]; [__proto__] is the accessor that gives the
    prototype itself. *)
Definition Object_prototype : list (jsstring * JsValue) :=
  [ (js "constructor", VFunction (js "Object"));
    (js "__defineGetter__", VFunction (js "__defineGetter__"));
    (js "__defineSetter__", VFunction (js "__defineSetter__"));
    (js "hasOwnProperty", VFunction (js "hasOwnProperty"));
    (js "__lookupGetter__", VFunction (js "__lookupGetter__"));
    (js "__lookupSetter__", VFunction (js "__lookupSetter__"));
    (js "isPrototypeOf", VFunction (js "isPrototypeOf"));
    (js "propertyIsEnumerable", VFunction (js "propertyIsEnumerable"));
    (js "toString", VFunction (js "toString"));
    (js "valueOf", VFunction (js "valueOf"));
    (js "__proto__", VObject (js "Object.prototype"));
    (js "toLocaleString", VFunction (js "toLocaleString")) ].

(** [o[key]] for an object literal [o] with own properties [props]. *)
Definition get (props : list (jsstring * JsValue)) (key : jsstring)
  : JsValue :=
  match own_property props key with
  | Some v => v
  | None =>
      match own_property Object_prototype key with
      | Some v => v
      | None => VUndefined
      end
  end.

End JsObject.

Import JsObject.

(** ** The ticket list page *)

Module Tickets.

Record State := {
  tickets : list TicketRow.t;
  selectedTicket : option TicketRow.t;
  showCreateDialog : bool;
  loading : bool
}.

Definition initial : State :=
  {| tickets := []; selectedTicket := None; showCreateDialog := false;
     loading := true |}.

Definition setTickets (v : list TicketRow.t) : M State unit :=
  modify (fun s =>
    {| tickets := v; selectedTicket := selectedTicket s;
       showCreateDialog := showCreateDialog s; loading := loading s |}).

Definition setSelectedTicket (v : option TicketRow.t) : M State unit :=
  modify (fun s =>
    {| tickets := tickets s; selectedTicket := v;
       showCreateDialog := showCreateDialog s; loading := loading s |}).

Definition setShowCreateDialog (v : bool) : M State unit :=
  modify (fun s =>
    {| tickets := tickets s; selectedTicket := selectedTicket s;
       showCreateDialog := v; loading := loading s |}).

Definition setLoading (v : bool) : M State unit :=
  modify (fun s =>
    {| tickets := tickets s; selectedTicket := selectedTicket s;
       showCreateDialog := showCreateDialog s; loading := v |}).

Definition tickets_query : Query :=
  {| q_table := js "tickets";
     q_columns := [js "*"; js "products(name)"; js "ticket_replies(count)"];
     q_eq := [];
     q_order := Some (js "created_at", false) |}.

Definition load_failed_toast : Notification :=
  {| n_title := js "Error";
     n_description := js "Failed to load tickets.";
     n_variant := VariantDestructive |}.

Definition fetchTickets : M State unit :=
  try_catch_finally
    (r <- request (Select tickets_query) tickets_reply ;;
     (match error r with
      | Some e => throw e
      | None => ret tt
      end) ;;
     setTickets (match data r with Some d => d | None => [] end))
    (fun e =>
       emit (ConsoleError (js "Error fetching tickets:") e) ;;
       toast load_failed_toast)
    (setLoading false).

(** The snapshot a successful fetch stores, [data || []]. *)
Definition fetched_rows (env : Env) : list TicketRow.t :=
  match data (tickets_reply env) with
  | Some d => d
  | None => []
  end.

(** The effect run when [user] changes. *)
Definition on_user (user : option AuthUser) : M State unit :=
  match user with
  | Some _ => fetchTickets
  | None => ret tt
  end.

(** A [<Badge>] element. *)
Record Badge := {
  b_variant : option jsstring;
  b_className : JsValue;
  b_children : jsstring
}.

Definition getStatusBadge (status : jsstring) : Badge :=
  if eqb status (js "open") then
    {| b_variant := None;
       b_className := VString (js "bg-green-500 text-white");
       b_children := js "Open" |}
  else if eqb status (js "closed") then
    {| b_variant := Some (js "destructive");
       b_className := VUndefined;
       b_children := js "Closed" |}
  else
    {| b_variant := Some (js "outline");
       b_className := VUndefined;
       b_children := status |}.

Definition colors : list (jsstring * JsValue) :=
  [ (js "Account", VString (js "bg-blue-500 text-white"));
    (js "Orders", VString (js "bg-purple-500 text-white"));
    (js "Other", VString (js "bg-orange-500 text-white")) ].

Definition gray : JsValue := VString (js "bg-gray-500 text-white").

Definition getCategoryBadge (category : jsstring) : Badge :=
  {| b_variant := None;
     b_className := value_or (get colors category) gray;
     b_children := category |}.

(** [ticket.ticket_replies?.[0]?.count || 0] *)
Definition reply_count (t : TicketRow.t) : N :=
  match TicketRow.ticket_replies t with
  | Some (r :: _) =>
      match count r with
      | Some n => n
      | None => 0%N
      end
  | _ => 0%N
  end.

(** The summary card of a ticket; the creation date is shown through
    the locale's date format. *)
Record Card := {
  card_key : jsstring;
  card_title : jsstring;
  card_category : Badge;
  card_status : Badge;
  card_description : jsstring;
  card_product : option jsstring;
  card_replies : N;
  card_created_at : jsstring
}.

Definition card (ticket : TicketRow.t) : Card :=
  {| card_key := TicketRow.id ticket;
     card_title := TicketRow.title ticket;
     card_category := getCategoryBadge (TicketRow.category ticket);
     card_status := getStatusBadge (TicketRow.status ticket);
     card_description := TicketRow.description ticket;
     card_product := option_map name (TicketRow.products ticket);
     card_replies := reply_count ticket;
     card_created_at := TicketRow.created_at ticket |}.

Inductive Body :=
| LoadingDots
| Grid (cards : list Card)
| EmptyState.

Record Page := {
  open_counter : nat;
  closed_counter : nat;
  body : Body;
  dialog_open : bool
}.

Inductive View :=
| TicketDetails (ticket : TicketRow.t)
| ListPage (p : Page).

Definition render (s : State) : View :=
  match selectedTicket s with
  | Some ticket => TicketDetails ticket
  | None =>
      ListPage
        {| open_counter :=
             List.length (filter (fun t => eqb (TicketRow.status t) (js "open"))
                       (tickets s));
           closed_counter :=
             List.length (filter
                       (fun t => eqb (TicketRow.status t) (js "closed"))
                       (tickets s));
           body :=
             if loading s then LoadingDots
             else if Nat.ltb 0 (List.length (tickets s))
                  then Grid (List.map card (tickets s))
                  else EmptyState;
           dialog_open := showCreateDialog s |}
  end.

(** The ticket cards a view shows, in display order. *)
Definition rendered_cards (v : View) : list Card :=
  match v with
  | ListPage p =>
      match body p with
      | Grid cards => cards
      | _ => []
      end
  | TicketDetails _ => []
  end.

(** The props the page passes to the dialog: [onOpenChange] is
    [setShowCreateDialog] and [onTicketCreated] is [fetchTickets]. *)
Definition dialog_callback (e : Event) : M State unit :=
  match e with
  | OnOpenChange b => setShowCreateDialog b
  | OnTicketCreated => fetchTickets
  | _ => ret tt
  end.

Fixpoint deliver (tr : list Event) : M State unit :=
  match tr with
  | [] => ret tt
  | e :: rest => dialog_callback e ;; deliver rest
  end.

End Tickets.

(** ** Reference counts and orders used by the statements *)

(** The number of rows whose status field is [st], by recursion on the
    snapshot. *)
Fixpoint count_status (st : jsstring) (rows : list TicketRow.t) : nat :=
  match rows with
  | [] => 0
  | r :: rest =>
      if eqb (TicketRow.status r) st
      then Datatypes.S (count_status st rest)
      else count_status st rest
  end.

(** The required fields of the form are filled in: title and description
    are non-empty once trimmed and a category is chosen. *)
Definition fields_filled (s : CreateTicketDialog.State) : Prop :=
  trim (CreateTicketDialog.title s) <> []
  /\ trim (CreateTicketDialog.description s) <> []
  /\ CreateTicketDialog.category s <> CatUnset.

(** A required field is missing. *)
Definition field_missing (s : CreateTicketDialog.State) : Prop :=
  trim (CreateTicketDialog.title s) = []
  \/ trim (CreateTicketDialog.description s) = []
  \/ CreateTicketDialog.category s = CatUnset.

(** No product is selected: nothing was ever chosen, or the last choice
    in the selector was its ["none"] item. *)
Definition no_product_selected (s : CreateTicketDialog.State) : Prop :=
  CreateTicketDialog.productId s = js ""
  \/ exists env s0,
       s = state_after
             (CreateTicketDialog.handleProductChange (js "none")) env s0.

(** ** Sample data *)

Module Sample.

Import CreateTicketDialog.

Definition bob : AuthUser :=
  {| username := js "bob"; email := None; role := None |}.

(** The form of the specification's example, no product chosen. *)
Definition late_delivery : State :=
  {| title := js "Late delivery";
     description := js "Order has not arrived";
     category := Orders;
     productId := js "";
     products := [];
     loading := false |}.

Definition row (i st created : string) : TicketRow.t :=
  {| TicketRow.id := js i;
     TicketRow.title := js "Late delivery";
     TicketRow.description := js "Order has not arrived";
     TicketRow.category := js "Orders";
     TicketRow.status := js st;
     TicketRow.products := None;
     TicketRow.ticket_replies := Some [ {| count := Some 2%N |} ];
     TicketRow.created_at := js created |}.

Definition rows : list TicketRow.t :=
  [ row "t2" "open" "2026-01-02T00:00:00+00:00";
    row "t1" "closed" "2026-01-01T00:00:00+00:00" ].

Definition refused (msg : string) : JsError :=
  {| message := Some (js msg) |}.

(** A clock that ticks between its first and its second reading. *)
Definition ticking (k : nat) : jsstring :=
  match k with
  | 0 => js "2026-01-01T00:00:00.000Z"
  | _ => js "2026-01-01T00:00:00.001Z"
  end.

Definition uuids (k : nat) : jsstring :=
  match k with
  | 0 => js "5d3c8d0e-0000-4000-8000-000000000001"
  | _ => js "5d3c8d0e-0000-4000-8000-000000000002"
  end.

(** Every request is accepted. *)
Definition env_ok : Env :=
  {| now_iso := ticking;
     randomUUID := uuids;
     insert_reply :=
       fun t => {| data := Some (TicketData.id t); error := None |};
     upsert_reply := fun _ => {| data := None; error := None |};
     products_reply := {| data := Some []; error := None |};
     tickets_reply := {| data := Some rows; error := None |} |}.

(** The ticket insert is refused. *)
Definition env_insert_refused : Env :=
  {| now_iso := ticking;
     randomUUID := uuids;
     insert_reply :=
       fun _ => {| data := None;
                   error := Some (refused "permission denied") |};
     upsert_reply := fun _ => {| data := None; error := None |};
     products_reply := {| data := Some []; error := None |};
     tickets_reply := {| data := Some rows; error := None |} |}.

(** The insert is accepted and the user upsert refused. *)
Definition env_upsert_refused : Env :=
  {| now_iso := ticking;
     randomUUID := uuids;
     insert_reply :=
       fun t => {| data := Some (TicketData.id t); error := None |};
     upsert_reply :=
       fun _ => {| data := None;
                   error := Some (refused "permission denied") |};
     products_reply := {| data := Some []; error := None |};
     tickets_reply := {| data := Some rows; error := None |} |}.

(** Both selects are refused. *)
Definition env_select_refused : Env :=
  {| now_iso := ticking;
     randomUUID := uuids;
     insert_reply :=
       fun t => {| data := Some (TicketData.id t); error := None |};
     upsert_reply := fun _ => {| data := None; error := None |};
     products_reply :=
       {| data := None; error := Some (refused "connection lost") |};
     tickets_reply :=
       {| data := None; error := Some (refused "connection lost") |} |}.

(** Code-unit-wise comparison; on timestamps written in one fixed
    format it is the order of the instants. *)
Fixpoint lex_geb (a b : jsstring) : bool :=
  match a, b with
  | _, [] => true
  | [], _ :: _ => false
  | x :: a', y :: b' =>
      if (y <? x)%N then true
      else if (x <? y)%N then false
      else lex_geb a' b'
  end.

Definition at_least_as_recent (a b : jsstring) : Prop :=
  lex_geb a b = true.

(** The page after a first, successful fetch. *)
Definition page_loaded : Tickets.State :=
  state_after Tickets.fetchTickets env_ok Tickets.initial.

End Sample.

(** ** Sessions: the handlers of a component run one after another *)

Fixpoint upserts (tr : list Event) : list UserData.t :=
  match tr with
  | [] => []
  | UpsertUser u _ _ :: rest => u :: upserts rest
  | _ :: rest => upserts rest
  end.

Fixpoint selects (tr : list Event) : list Query :=
  match tr with
  | [] => []
  | Select q :: rest => q :: selects rest
  | _ :: rest => selects rest
  end.

(** The string begins or ends with a code unit that [trim] strips. *)
Definition padded (s : jsstring) : bool :=
  match s with
  | [] => false
  | c :: _ => is_ws c || is_ws (last s c)
  end.

Module DialogSession.

Import CreateTicketDialog.

(** What can happen to the dialog: the [onChange] of the two text inputs,
    the [onValueChange] of the two selectors, the effect on the [open]
    prop, the Cancel button and the form's [onSubmit]. *)
Inductive Action :=
| TypeTitle (value : jsstring)
| TypeDescription (value : jsstring)
| ChooseCategory (value : jsstring)
| ChooseProduct (value : jsstring)
| OpenChanged (open : bool)
| Cancel
| Submit (user : option AuthUser).

(** The handler installed by the render from state [c]. *)
Definition handler (a : Action) (c : State) : M State unit :=
  match a with
  | TypeTitle value => setTitle value
  | TypeDescription value => setDescription value
  | ChooseCategory value => handleCategoryChange value
  | ChooseProduct value => handleProductChange value
  | OpenChanged open => on_open open
  | Cancel => emit (OnOpenChange false)
  | Submit user => handleSubmit user c
  end.

Definition step (s : State) (ae : Action * Env) : State :=
  state_after (handler (fst ae) s) (snd ae) s.

Definition session (steps : list (Action * Env)) (s : State) : State :=
  fold_left step steps s.

(** Everything the handlers of a session did, in order. *)
Fixpoint session_trace (steps : list (Action * Env)) (s : State)
  : list Event :=
  match steps with
  | [] => []
  | ae :: rest =>
      trace_of (handler (fst ae) s) (snd ae) s
      ++ session_trace rest (step s ae)
  end.

End DialogSession.

Module PageSession.

Import Tickets.

(** What can happen to the page: the effect on [user], a click on a card,
    [onBack] and [onUpdate] of the details view, the New Ticket button and
    the callbacks passed to the dialog. *)
Inductive Action :=
| UserChanged (user : option AuthUser)
| CardClicked (ticket : TicketRow.t)
| Back
| Updated
| NewTicket
| FromDialog (e : Event).

Definition handler (a : Action) : M State unit :=
  match a with
  | UserChanged user => on_user user
  | CardClicked ticket => setSelectedTicket (Some ticket)
  | Back => setSelectedTicket None
  | Updated => fetchTickets
  | NewTicket => setShowCreateDialog true
  | FromDialog e => dialog_callback e
  end.

Definition step (s : State) (ae : Action * Env) : State :=
  state_after (handler (fst ae)) (snd ae) s.

Definition session (steps : list (Action * Env)) (s : State) : State :=
  fold_left step steps s.

Fixpoint session_trace (steps : list (Action * Env)) (s : State)
  : list Event :=
  match steps with
  | [] => []
  | ae :: rest =>
      trace_of (handler (fst ae)) (snd ae) s
      ++ session_trace rest (step s ae)
  end.

End PageSession.

(** More sample data. *)
Module Sample2.

Import CreateTicketDialog.

Definition widget : Product :=
  {| p_id := js "9b2f0c1e-0000-4000-8000-00000000000a";
     p_name := js "Widget" |}.

Definition gadget : Product :=
  {| p_id := js "9b2f0c1e-0000-4000-8000-00000000000b";
     p_name := js "Gadget" |}.

(** Every request is accepted; two products are on offer. *)
Definition env_products : Env :=
  {| now_iso := Sample.ticking;
     randomUUID := Sample.uuids;
     insert_reply :=
       fun t => {| data := Some (TicketData.id t); error := None |};
     upsert_reply := fun _ => {| data := None; error := None |};
     products_reply := {| data := Some [gadget; widget]; error := None |};
     tickets_reply :=
       {| data := Some [Sample.row "t3" "pending" "2026-01-03T00:00:00+00:00"];
          error := None |} |}.

Definition alice : AuthUser :=
  {| username := js "alice";
     email := Some (js "alice@example.org");
     role := Some (js "admin") |}.

(** A form whose title is white space only. *)
Definition blank_title : State :=
  {| title := js "   ";
     description := js "Order has not arrived";
     category := Orders;
     productId := js "";
     products := [];
     loading := false |}.


End Sample2.

Unset Implicit Arguments.

(** Splits a goal into its conjuncts, leaving every other connective. *)
Ltac split_conj :=
  repeat match goal with |- _ /\ _ => split end.

(** ** Facts about strings *)

Section JsStringFacts.

Lemma eqb_eq (a b : jsstring) : eqb a b = true <-> a = b.
Proof.
  unfold eqb. destruct (list_eq_dec N.eq_dec a b); split; congruence.
Qed.

Lemma eqb_neq (a b : jsstring) : eqb a b = false <-> a <> b.
Proof.
  unfold eqb. destruct (list_eq_dec N.eq_dec a b); split; congruence.
Qed.

Lemma eqb_refl (a : jsstring) : eqb a a = true.
Proof. now apply eqb_eq. Qed.

Lemma truthy_true (s : jsstring) : truthy s = true <-> s <> [].
Proof. destruct s; simpl; split; congruence. Qed.

Lemma truthy_false (s : jsstring) : truthy s = false <-> s = [].
Proof. destruct s; simpl; split; congruence. Qed.

Lemma trim_empty : trim [] = [].
Proof. reflexivity. Qed.

Lemma trimStart_all_ws (s : jsstring) :
  forallb is_ws s = true -> trimStart s = [].
Proof.
  induction s as [|c s IH]; simpl; [reflexivity|].
  intros H. apply andb_true_iff in H as [Hc Hs].
  rewrite Hc. now apply IH.
Qed.

(** A string made of white space only trims to the empty string. *)
Lemma trim_all_ws (s : jsstring) :
  forallb is_ws s = true -> trim s = [].
Proof.
  intros H. unfold trim. now rewrite (trimStart_all_ws s H).
Qed.

Lemma trimStart_head (s : jsstring) :
  match trimStart s with
  | [] => True
  | c :: _ => is_ws c = false
  end.
Proof.
  induction s as [|c s IH]; simpl; [exact I|].
  destruct (is_ws c) eqn:E; [exact IH | exact E].
Qed.

Example trim_strips_both_ends :
  trim (js "  Late delivery  ") = js "Late delivery".
Proof. reflexivity. Qed.

Example trim_keeps_inner_space :
  trim (9 :: js "a b" ++ [10; 0x3000])%N = js "a b".
Proof. reflexivity. Qed.

Lemma or_else_truthy (a b : jsstring) : a <> [] -> or_else a b = a.
Proof.
  intros H. unfold or_else. now rewrite (proj2 (truthy_true a) H).
Qed.

Lemma category_set_true (c : Category) :
  category_set c = true <-> c <> CatUnset.
Proof. destruct c; cbv; split; congruence. Qed.

End JsStringFacts.

(** ** Facts about the creation dialog *)

Module DialogFacts.

Import CreateTicketDialog.

Lemma guard_passes (s : State) :
  fields_filled s ->
  negb (truthy (trim (title s)))
  || negb (truthy (trim (description s)))
  || negb (category_set (category s)) = false.
Proof.
  intros (Ht & Hd & Hc).
  apply truthy_true in Ht. apply truthy_true in Hd.
  apply category_set_true in Hc.
  now rewrite Ht, Hd, Hc.
Qed.

Lemma guard_rejects (s : State) :
  field_missing s ->
  negb (truthy (trim (title s)))
  || negb (truthy (trim (description s)))
  || negb (category_set (category s)) = true.
Proof.
  intros [H | [H | H]].
  - rewrite H. reflexivity.
  - rewrite H. simpl. apply orb_true_iff. left. apply orb_true_r.
  - rewrite H. apply orb_true_r.
Qed.

(** An empty title or description, or an unset category, is a missing
    field. *)
Lemma empty_is_missing (s : State) :
  title s = js "" \/ description s = js "" \/ category s = CatUnset ->
  field_missing s.
Proof.
  intros [H | [H | H]].
  - left. now rewrite H.
  - right. left. now rewrite H.
  - right. right. exact H.
Qed.

Lemma filled_or_missing (s : State) : fields_filled s \/ field_missing s.
Proof.
  unfold fields_filled, field_missing.
  destruct (trim (title s)); [right; now left|].
  destruct (trim (description s)); [right; right; now left|].
  destruct (category s); [right; right; now right| | |];
    left; repeat split; discriminate.
Qed.

(** A missing field: the submission ends at the validation toast. *)
Lemma submit_rejected (user : option AuthUser) (env : Env) (s : State) :
  field_missing s ->
  submit user env s =
    (Returned tt,
     {| m_state := s;
        m_trace := [PreventDefault; Toast validation_toast];
        m_clock_reads := 0; m_uuid_calls := 0 |}).
Proof.
  intros H. unfold submit, run, handleSubmit, bind.
  cbn [emit fst snd m_state m_trace m_clock_reads m_uuid_calls app].
  rewrite (guard_rejects s H). destruct s; reflexivity.
Qed.

(** No actor: the submission ends at the login toast. *)
Lemma submit_anonymous (env : Env) (s : State) :
  fields_filled s ->
  submit None env s =
    (Returned tt,
     {| m_state := s;
        m_trace := [PreventDefault; Toast login_toast];
        m_clock_reads := 0; m_uuid_calls := 0 |}).
Proof.
  intros H. unfold submit, run, handleSubmit, bind.
  cbn [emit fst snd m_state m_trace m_clock_reads m_uuid_calls app].
  rewrite (guard_passes s H). destruct s; reflexivity.
Qed.

(** The insert is refused: the error is thrown past the upsert and the
    reset, caught, and reported. *)
Lemma submit_insert_failed (u : AuthUser) (env : Env) (s : State)
    (e : JsError) :
  fields_filled s ->
  error (insert_reply env (ticketData_of env s)) = Some e ->
  submit (Some u) env s =
    (Returned tt,
     {| m_state :=
          {| title := title s; description := description s;
             category := category s; productId := productId s;
             products := products s; loading := false |};
        m_trace :=
          [PreventDefault;
           ConsoleLog (js "Creating ticket with data:");
           InsertTicket (ticketData_of env s);
           ConsoleError (js "Ticket creation error:") e;
           ConsoleError (js "Error creating ticket:") e;
           Toast (failure_toast e)];
        m_clock_reads := 2; m_uuid_calls := 2 |}).
Proof.
  intros H He. unfold submit, run, handleSubmit, bind.
  cbn [emit fst snd m_state m_trace m_clock_reads m_uuid_calls app].
  rewrite (guard_passes s H).
  unfold try_catch_finally, bind, request, crypto_randomUUID,
    new_Date_toISOString, setLoading, modify, emit, toast, throw, ret.
  cbn [fst snd m_state m_trace m_clock_reads m_uuid_calls app
       title description category productId products loading].
  fold (ticketData_of env s). rewrite He.
  reflexivity.
Qed.

(** The insert is accepted: whatever the upsert replies, the form is
    reset and both callbacks are called. *)
Lemma submit_created (u : AuthUser) (env : Env) (s : State) :
  fields_filled s ->
  error (insert_reply env (ticketData_of env s)) = None ->
  submit (Some u) env s =
    (Returned tt,
     {| m_state :=
          {| title := js ""; description := js ""; category := CatUnset;
             productId := js ""; products := products s;
             loading := false |};
        m_trace :=
          [PreventDefault;
           ConsoleLog (js "Creating ticket with data:");
           InsertTicket (ticketData_of env s);
           ConsoleLog (js "Ticket created successfully:");
           UpsertUser (userData_of (randomUUID env 1) u) (js "id") true;
           Toast success_toast;
           OnOpenChange false;
           OnTicketCreated];
        m_clock_reads := 2; m_uuid_calls := 2 |}).
Proof.
  intros H He. unfold submit, run, handleSubmit, bind.
  cbn [emit fst snd m_state m_trace m_clock_reads m_uuid_calls app].
  rewrite (guard_passes s H).
  unfold try_catch_finally, bind, request, crypto_randomUUID,
    new_Date_toISOString, setLoading, setTitle, setDescription,
    setCategory, setProductId, modify, emit, toast, throw, ret.
  cbn [fst snd m_state m_trace m_clock_reads m_uuid_calls app
       title description category productId products loading].
  fold (ticketData_of env s). rewrite He.
  reflexivity.
Qed.

(** Whatever the backend replies, a submission that passes both guards
    sends the record built from the form, once. *)
Lemma submit_inserts (u : AuthUser) (env : Env) (s : State) :
  fields_filled s ->
  inserts (m_trace (snd (submit (Some u) env s))) = [ticketData_of env s].
Proof.
  intros Hf.
  destruct (error (insert_reply env (ticketData_of env s))) as [e|] eqn:He.
  - now rewrite (submit_insert_failed u env s e Hf He).
  - now rewrite (submit_created u env s Hf He).
Qed.

Lemma submit_inserts_nothing (user : option AuthUser) (env : Env)
    (s : State) :
  field_missing s \/ user = None ->
  inserts (m_trace (snd (submit user env s))) = [].
Proof.
  intros H. destruct (filled_or_missing s) as [Hf | Hm].
  - destruct H as [Hm | Hu].
    + destruct Hf as (Ht & Hd & Hc).
      destruct Hm as [Hm | [Hm | Hm]]; contradiction.
    + subst user. now rewrite (submit_anonymous env s Hf).
  - now rewrite (submit_rejected user env s Hm).
Qed.

(** Choosing the selector's ["none"] item stores the empty string. *)
Lemma handleProductChange_none (env : Env) (s : State) :
  productId (state_after (handleProductChange (js "none")) env s) = js "".
Proof. reflexivity. Qed.

Lemma no_product_selected_empty (s : State) :
  no_product_selected s -> productId s = js "".
Proof.
  intros [H | (env & s0 & H)]; [exact H|].
  rewrite H. apply handleProductChange_none.
Qed.

(** A failed product fetch only logs. *)
Lemma fetchProducts_failed (env : Env) (s : State) (e : JsError) :
  error (products_reply env) = Some e ->
  run fetchProducts env s =
    (Returned tt,
     {| m_state := s;
        m_trace :=
          [Select products_query;
           ConsoleError (js "Error fetching products:") e];
        m_clock_reads := 0; m_uuid_calls := 0 |}).
Proof.
  intros He.
  unfold run, fetchProducts, try_catch, try_catch_finally, bind, request,
    setProducts, modify, emit, throw, ret.
  rewrite He. reflexivity.
Qed.

End DialogFacts.

(** ** Facts about the list page *)

Module PageFacts.

Import Tickets.

Lemma fetchTickets_failed (env : Env) (m : Machine State) (e : JsError) :
  error (tickets_reply env) = Some e ->
  fetchTickets env m =
    (Returned tt,
     {| m_state :=
          {| tickets := tickets (m_state m);
             selectedTicket := selectedTicket (m_state m);
             showCreateDialog := showCreateDialog (m_state m);
             loading := false |};
        m_trace :=
          m_trace m
          ++ [Select tickets_query;
              ConsoleError (js "Error fetching tickets:") e;
              Toast load_failed_toast];
        m_clock_reads := m_clock_reads m;
        m_uuid_calls := m_uuid_calls m |}).
Proof.
  intros He.
  unfold fetchTickets, try_catch_finally, bind, request, setTickets,
    setLoading, modify, toast, emit, throw, ret.
  rewrite He.
  cbn [fst snd m_state m_trace m_clock_reads m_uuid_calls
       tickets selectedTicket showCreateDialog loading].
  now rewrite <- !app_assoc.
Qed.

Lemma fetchTickets_succeeded (env : Env) (m : Machine State) :
  error (tickets_reply env) = None ->
  fetchTickets env m =
    (Returned tt,
     {| m_state :=
          {| tickets := fetched_rows env;
             selectedTicket := selectedTicket (m_state m);
             showCreateDialog := showCreateDialog (m_state m);
             loading := false |};
        m_trace := m_trace m ++ [Select tickets_query];
        m_clock_reads := m_clock_reads m;
        m_uuid_calls := m_uuid_calls m |}).
Proof.
  intros He.
  unfold fetchTickets, try_catch_finally, bind, request, setTickets,
    setLoading, modify, emit, toast, throw, ret.
  rewrite He. reflexivity.
Qed.

(** A fetch always returns, and touches neither the selection nor the
    dialog flag. *)
Lemma fetchTickets_frame (env : Env) (m : Machine State) :
  fst (fetchTickets env m) = Returned tt
  /\ showCreateDialog (m_state (snd (fetchTickets env m)))
     = showCreateDialog (m_state m)
  /\ selectedTicket (m_state (snd (fetchTickets env m)))
     = selectedTicket (m_state m).
Proof.
  destruct (error (tickets_reply env)) as [e|] eqn:He.
  - rewrite (fetchTickets_failed env m e He). now repeat split.
  - rewrite (fetchTickets_succeeded env m He). now repeat split.
Qed.

(** The first thing a fetch does is to issue the query. *)
Lemma fetchTickets_query_first (env : Env) (s : State) :
  exists rest, trace_of fetchTickets env s = Select tickets_query :: rest.
Proof.
  unfold trace_of, run.
  destruct (error (tickets_reply env)) as [e|] eqn:He.
  - rewrite (fetchTickets_failed env _ e He). simpl. eauto.
  - rewrite (fetchTickets_succeeded env _ He). simpl. eauto.
Qed.

Lemma filter_length_count (st : jsstring) (rows : list TicketRow.t) :
  List.length (filter (fun t => eqb (TicketRow.status t) st) rows)
  = count_status st rows.
Proof.
  induction rows as [|r rows IH]; simpl; [reflexivity|].
  destruct (eqb (TicketRow.status r) st); simpl; now rewrite IH.
Qed.

Lemma render_list_page (s : State) :
  selectedTicket s = None ->
  render s =
    ListPage
      {| open_counter := count_status (js "open") (tickets s);
         closed_counter := count_status (js "closed") (tickets s);
         body :=
           if loading s then LoadingDots
           else match tickets s with
                | [] => EmptyState
                | _ :: _ => Grid (List.map card (tickets s))
                end;
         dialog_open := showCreateDialog s |}.
Proof.
  intros Hs. unfold render. rewrite Hs.
  rewrite !filter_length_count.
  destruct (tickets s); reflexivity.
Qed.

(** Once loaded, the page shows one card per ticket of the snapshot, in
    the snapshot's order. *)
Lemma rendered_cards_loaded (s : State) :
  selectedTicket s = None -> loading s = false ->
  rendered_cards (render s) = List.map card (tickets s).
Proof.
  intros Hs Hl. rewrite (render_list_page s Hs). simpl. rewrite Hl.
  destruct (tickets s); reflexivity.
Qed.

Lemma StronglySorted_map (A B : Type) (R : B -> B -> Prop) (f : A -> B)
    (l : list A) :
  StronglySorted (fun x y => R (f x) (f y)) l ->
  StronglySorted R (List.map f l).
Proof.
  induction 1 as [|x l Hl IH Hx]; simpl; constructor.
  - exact IH.
  - apply Forall_map. exact Hx.
Qed.

(** Delivering the callbacks of a successful submission to the page
    closes the dialog. *)
Lemma deliver_close_then_refresh (env : Env) (p : State)
    (before : list Event) :
  Forall (fun e => is_open_change e = false /\ is_refresh e = false)
    before ->
  showCreateDialog
    (state_after (deliver (before ++ [OnOpenChange false; OnTicketCreated]))
       env p) = false.
Proof.
  unfold state_after, run.
  generalize ({| m_state := p; m_trace := []; m_clock_reads := 0;
                 m_uuid_calls := 0 |}).
  induction before as [|e before IH]; intros m Hb.
  - simpl. unfold bind, setShowCreateDialog, modify.
    destruct (fetchTickets_frame env
                {| m_state :=
                     {| tickets := tickets (m_state m);
                        selectedTicket := selectedTicket (m_state m);
                        showCreateDialog := false;
                        loading := loading (m_state m) |};
                   m_trace := m_trace m;
                   m_clock_reads := m_clock_reads m;
                   m_uuid_calls := m_uuid_calls m |})
      as (Hr & Hd & _).
    destruct (fetchTickets env _) as [[a|err] m']; simpl in *;
      [exact Hd | discriminate].
  - inversion Hb as [|? ? [He1 He2] Hb']; subst.
    simpl. unfold bind at 1.
    destruct e; simpl in He1, He2; try discriminate;
      unfold dialog_callback, ret; apply IH; exact Hb'.
Qed.

(** Without a call of [onOpenChange] the dialog flag stays as it is. *)
Lemma deliver_keeps_dialog_flag (env : Env) (p : State)
    (tr : list Event) :
  filter is_open_change tr = [] ->
  showCreateDialog (state_after (deliver tr) env p) = showCreateDialog p.
Proof.
  unfold state_after, run.
  change (showCreateDialog p) with
    (showCreateDialog
       (m_state {| m_state := p; m_trace := []; m_clock_reads := 0;
                   m_uuid_calls := 0 |})).
  generalize ({| m_state := p; m_trace := []; m_clock_reads := 0;
                 m_uuid_calls := 0 |}).
  induction tr as [|e tr IH]; intros m Hf; [reflexivity|].
  simpl. unfold bind at 1.
  destruct e; simpl in Hf; try discriminate;
    unfold dialog_callback; try (unfold ret; now apply IH).
  destruct (fetchTickets_frame env m) as (Hr & Hd & _).
  destruct (fetchTickets env m) as [[a|err] m']; simpl in *;
    [|discriminate].
  rewrite <- Hd. now apply IH.
Qed.

End PageFacts.

(** ** Properties of the creation dialog *)

Module DialogClaims.

Import CreateTicketDialog DialogFacts.

(** C1, as the code has it.  With an authenticated actor, title and
    description non-empty once trimmed and a category set, a submission
    whose insert is accepted issues exactly one ticket insert; the record
    has status "open", its creation timestamp is the clock reading taken
    when the record is built and its last-update timestamp is the next
    reading; afterwards title, description, category and product
    selection are empty, [onOpenChange(false)] is called once (which
    closes the dialog on the page) and the refresh callback is called
    exactly once, both after the insert. *)
Theorem successful_creation (u : AuthUser) (env : Env) (s : State) :
  fields_filled s ->
  error (insert_reply env (ticketData_of env s)) = None ->
  let r := submit (Some u) env s in
  let tr := m_trace (snd r) in
  let s' := m_state (snd r) in
  (exists td before between,
      tr = before ++ InsertTicket td
                       :: between ++ [OnOpenChange false; OnTicketCreated]
      /\ inserts tr = [td]
      /\ TicketData.status td = js "open"
      /\ TicketData.created_at td = now_iso env 0
      /\ TicketData.updated_at td = now_iso env 1
      /\ (now_iso env 0 = now_iso env 1 ->
          TicketData.created_at td = TicketData.updated_at td))
  /\ title s' = js "" /\ description s' = js ""
  /\ category s' = CatUnset /\ productId s' = js ""
  /\ filter is_open_change tr = [OnOpenChange false]
  /\ filter is_refresh tr = [OnTicketCreated]
  /\ forall penv p,
       Tickets.showCreateDialog
         (state_after (Tickets.deliver tr) penv p) = false.
Proof.
  intros Hf Hi r tr s'. subst s' tr r.
  rewrite (submit_created u env s Hf Hi).
  cbn [snd m_trace m_state title description category productId].
  split.
  - exists (ticketData_of env s).
    exists [PreventDefault; ConsoleLog (js "Creating ticket with data:")].
    exists [ConsoleLog (js "Ticket created successfully:");
            UpsertUser (userData_of (randomUUID env 1) u) (js "id") true;
            Toast success_toast].
    split_conj; try reflexivity.
    intros Hclock. exact Hclock.
  - split_conj; try reflexivity.
    intros penv p.
    apply (PageFacts.deliver_close_then_refresh penv p
             [PreventDefault; ConsoleLog (js "Creating ticket with data:");
              InsertTicket (ticketData_of env s);
              ConsoleLog (js "Ticket created successfully:");
              UpsertUser (userData_of (randomUUID env 1) u) (js "id") true;
              Toast success_toast]).
    repeat constructor.
Qed.

(** C1 as stated fails: when the clock ticks between the two reads, the
    inserted record's creation and last-update timestamps differ, so no
    single submission time equals both. *)
Lemma creation_timestamps_can_differ :
  let tr :=
    m_trace (snd (submit (Some Sample.bob) Sample.env_ok
                    Sample.late_delivery)) in
  let td := ticketData_of Sample.env_ok Sample.late_delivery in
  inserts tr = [td]
  /\ TicketData.created_at td = js "2026-01-01T00:00:00.000Z"
  /\ TicketData.updated_at td = js "2026-01-01T00:00:00.001Z"
  /\ ~ (exists submission_time,
          TicketData.created_at td = submission_time
          /\ TicketData.updated_at td = submission_time).
Proof.
  repeat split.
  intros (t & H1 & H2). rewrite <- H2 in H1. vm_compute in H1.
  discriminate H1.
Qed.

(** C2.  When title, description or category is missing (empty, or blank
    once trimmed, or unset) or no actor is authenticated, [handleSubmit]
    issues no backend request and shows exactly one error notification:
    the validation one when a field is missing, the login one otherwise.
    The form is left as it was. *)
Theorem rejected_submission_is_local (user : option AuthUser) (env : Env)
    (s : State) :
  field_missing s \/ user = None ->
  let r := submit user env s in
  let tr := m_trace (snd r) in
  filter is_request tr = []
  /\ inserts tr = []
  /\ filter is_upsert tr = []
  /\ (exists n, toasts tr = [n]
                /\ n_title n = js "Error"
                /\ n_variant n = VariantDestructive)
  /\ (field_missing s -> toasts tr = [validation_toast])
  /\ (fields_filled s -> toasts tr = [login_toast])
  /\ m_state (snd r) = s.
Proof.
  intros H r tr. subst tr r.
  destruct (filled_or_missing s) as [Hf | Hm].
  - destruct H as [Hm | Hu].
    + destruct Hf as (Ht & Hd & Hc).
      destruct Hm as [Hm | [Hm | Hm]]; contradiction.
    + subst user. rewrite (submit_anonymous env s Hf).
      cbn [snd m_trace m_state].
      repeat split; try reflexivity.
      * exists login_toast. repeat split.
      * intros Hm. destruct Hf as (Ht & Hd & Hc).
        destruct Hm as [Hm | [Hm | Hm]]; contradiction.
  - rewrite (submit_rejected user env s Hm).
    cbn [snd m_trace m_state].
    repeat split; try reflexivity.
    + exists validation_toast. repeat split.
    + intros (Ht & Hd & Hc).
      destruct Hm as [Hm | [Hm | Hm]]; contradiction.
Qed.

(** C3.  When the ticket insert is refused, no user upsert is issued,
    one notification is shown that carries the error's message (the
    fixed text "Please try again." when the error has none), title,
    description, category and product selection keep their values, and
    [onOpenChange] is not called, so the dialog stays as it is. *)
Theorem failed_insert_keeps_form (u : AuthUser) (env : Env) (s : State)
    (e : JsError) :
  fields_filled s ->
  error (insert_reply env (ticketData_of env s)) = Some e ->
  let r := submit (Some u) env s in
  let tr := m_trace (snd r) in
  let s' := m_state (snd r) in
  filter is_upsert tr = []
  /\ inserts tr = [ticketData_of env s]
  /\ toasts tr = [failure_toast e]
  /\ n_variant (failure_toast e) = VariantDestructive
  /\ (forall msg, message e = Some msg -> msg <> [] ->
        n_description (failure_toast e)
        = js "Failed to create ticket: " ++ msg)
  /\ title s' = title s /\ description s' = description s
  /\ category s' = category s /\ productId s' = productId s
  /\ filter is_open_change tr = []
  /\ filter is_refresh tr = []
  /\ forall penv p,
       Tickets.showCreateDialog (state_after (Tickets.deliver tr) penv p)
       = Tickets.showCreateDialog p.
Proof.
  intros Hf He r tr s'. subst s' tr r.
  rewrite (submit_insert_failed u env s e Hf He).
  cbn [snd m_trace m_state title description category productId].
  split_conj;
    try (intros penv p; now apply PageFacts.deliver_keeps_dialog_flag);
    try reflexivity.
  intros msg Hm Hne. unfold failure_toast. cbn [n_description].
  rewrite Hm. unfold opt_or_else. now rewrite (or_else_truthy _ _ Hne).
Qed.

(** C5.  When the insert is accepted and the user upsert is refused,
    nothing reports the refusal: the only notification is the success
    one, no error is logged, the form is reset and the refresh callback
    is called once. *)
Theorem failed_upsert_is_ignored (u : AuthUser) (env : Env) (s : State)
    (e : JsError) :
  fields_filled s ->
  error (insert_reply env (ticketData_of env s)) = None ->
  error (upsert_reply env (userData_of (randomUUID env 1) u)) = Some e ->
  let r := submit (Some u) env s in
  let tr := m_trace (snd r) in
  let s' := m_state (snd r) in
  fst r = Returned tt
  /\ (exists before after,
        tr = before
             ++ UpsertUser (userData_of (randomUUID env 1) u) (js "id") true
                  :: after)
  /\ toasts tr = [success_toast]
  /\ n_variant success_toast = VariantDefault
  /\ (forall msg err, ~ In (ConsoleError msg err) tr)
  /\ title s' = js "" /\ description s' = js ""
  /\ category s' = CatUnset /\ productId s' = js ""
  /\ filter is_open_change tr = [OnOpenChange false]
  /\ filter is_refresh tr = [OnTicketCreated].
Proof.
  intros Hf Hi _ r tr s'. subst s' tr r.
  rewrite (submit_created u env s Hf Hi).
  cbn [fst snd m_trace m_state title description category productId].
  repeat split.
  - exists [PreventDefault; ConsoleLog (js "Creating ticket with data:");
            InsertTicket (ticketData_of env s);
            ConsoleLog (js "Ticket created successfully:")].
    exists [Toast success_toast; OnOpenChange false; OnTicketCreated].
    reflexivity.
  - intros msg err Hin. simpl in Hin.
    repeat (destruct Hin as [Hin | Hin]; [discriminate Hin|]).
    exact Hin.
Qed.

(** C6.  With no product selected (nothing chosen, or the selector's
    "none" item chosen last), every ticket record a submission sends has
    a null product identifier, never the string "none"; the record
    carries the form's category and status "open", and one such record
    is sent whenever the form is filled in and an actor is present. *)
Theorem no_product_is_null (user : option AuthUser) (env : Env)
    (s : State) :
  no_product_selected s ->
  let tr := m_trace (snd (submit user env s)) in
  Forall (fun td =>
            TicketData.product_id td = None
            /\ TicketData.product_id td <> Some (js "none")
            /\ TicketData.category td = category s
            /\ TicketData.status td = js "open")
         (inserts tr)
  /\ (fields_filled s -> user <> None -> exists td, inserts tr = [td]).
Proof.
  intros Hn tr. subst tr.
  pose proof (no_product_selected_empty s Hn) as Hp.
  destruct (filled_or_missing s) as [Hf | Hm].
  - destruct user as [u|].
    + rewrite (submit_inserts u env s Hf). split.
      * constructor; [|constructor].
        unfold ticketData_of. cbn [TicketData.product_id
          TicketData.category TicketData.status].
        rewrite Hp. repeat split. discriminate.
      * intros _ _. now exists (ticketData_of env s).
    + rewrite (submit_inserts_nothing None env s (or_intror eq_refl)).
      split; [constructor|]. intros _ H. now contradiction H.
  - rewrite (submit_inserts_nothing user env s (or_introl Hm)).
    split; [constructor|]. intros (Ht & Hd & Hc) _.
    destruct Hm as [Hm | [Hm | Hm]]; contradiction.
Qed.

(** C10.  When the product fetch fails, nothing is shown to the user
    (the error is only logged), the product list and the rest of the
    form keep their values, the selector still offers "none", and a
    filled-in form without a product can still be submitted: its ticket
    is inserted with a null product and the success notification is
    shown. *)
Theorem product_fetch_failure_is_silent (env : Env) (s : State)
    (e : JsError) :
  error (products_reply env) = Some e ->
  let r := run fetchProducts env s in
  let s' := m_state (snd r) in
  fst r = Returned tt
  /\ m_trace (snd r)
     = [Select products_query;
        ConsoleError (js "Error fetching products:") e]
  /\ toasts (m_trace (snd r)) = []
  /\ products s' = products s
  /\ s' = s
  /\ buttons_disabled s' = buttons_disabled s
  /\ In (js "none") (product_options s')
  /\ forall u env2,
       fields_filled s' -> productId s' = js "" ->
       error (insert_reply env2 (ticketData_of env2 s')) = None ->
       let tr := m_trace (snd (submit (Some u) env2 s')) in
       (exists td, inserts tr = [td] /\ TicketData.product_id td = None)
       /\ toasts tr = [success_toast].
Proof.
  intros He r s'. subst s' r.
  rewrite (fetchProducts_failed env s e He).
  cbn [fst snd m_trace m_state].
  split_conj; try reflexivity.
  - now left.
  - intros u env2 Hf Hp Hi.
    rewrite (submit_created u env2 s Hf Hi). cbn [snd m_trace].
    split; [|reflexivity].
    exists (ticketData_of env2 s). split; [reflexivity|].
    unfold ticketData_of. cbn [TicketData.product_id]. now rewrite Hp.
Qed.

(** *** The statements above at the sample form *)

Lemma late_delivery_filled : fields_filled Sample.late_delivery.
Proof. unfold fields_filled. repeat split; vm_compute; discriminate. Defined.

Lemma successful_creation_witness :
  fields_filled Sample.late_delivery
  /\ error (insert_reply Sample.env_ok
              (ticketData_of Sample.env_ok Sample.late_delivery)) = None
  /\ (let s' := m_state (snd (submit (Some Sample.bob) Sample.env_ok
                                 Sample.late_delivery)) in
      title s' = js "" /\ description s' = js ""
      /\ category s' = CatUnset /\ productId s' = js "").
Proof.
  split; [exact late_delivery_filled|]. split; [reflexivity|].
  destruct (successful_creation Sample.bob Sample.env_ok
              Sample.late_delivery late_delivery_filled eq_refl)
    as (_ & Ht & Hd & Hc & Hp & _).
  repeat split; assumption.
Defined.

Lemma rejected_submission_witness :
  (field_missing Sample.late_delivery \/ @None AuthUser = None)
  /\ filter is_request
       (m_trace (snd (submit None Sample.env_ok Sample.late_delivery)))
     = []
  /\ toasts
       (m_trace (snd (submit None Sample.env_ok Sample.late_delivery)))
     = [login_toast].
Proof.
  split; [right; reflexivity|].
  destruct (rejected_submission_is_local None Sample.env_ok
              Sample.late_delivery (or_intror eq_refl))
    as (Hr & _ & _ & _ & _ & Hl & _).
  split; [exact Hr | exact (Hl late_delivery_filled)].
Defined.

Lemma failed_insert_witness :
  fields_filled Sample.late_delivery
  /\ error (insert_reply Sample.env_insert_refused
              (ticketData_of Sample.env_insert_refused
                 Sample.late_delivery))
     = Some (Sample.refused "permission denied")
  /\ (let r := submit (Some Sample.bob) Sample.env_insert_refused
                 Sample.late_delivery in
      filter is_upsert (m_trace (snd r)) = []
      /\ toasts (m_trace (snd r))
         = [failure_toast (Sample.refused "permission denied")]
      /\ title (m_state (snd r)) = js "Late delivery").
Proof.
  split; [exact late_delivery_filled|]. split; [reflexivity|].
  destruct (failed_insert_keeps_form Sample.bob Sample.env_insert_refused
              Sample.late_delivery (Sample.refused "permission denied")
              late_delivery_filled eq_refl)
    as (Hu & _ & Ht & _ & _ & Hti & _).
  repeat split; assumption.
Defined.

Lemma failed_upsert_witness :
  fields_filled Sample.late_delivery
  /\ error (insert_reply Sample.env_upsert_refused
              (ticketData_of Sample.env_upsert_refused
                 Sample.late_delivery)) = None
  /\ error (upsert_reply Sample.env_upsert_refused
              (userData_of (randomUUID Sample.env_upsert_refused 1)
                 Sample.bob))
     = Some (Sample.refused "permission denied")
  /\ toasts (m_trace (snd (submit (Some Sample.bob)
                             Sample.env_upsert_refused
                             Sample.late_delivery)))
     = [success_toast].
Proof.
  split; [exact late_delivery_filled|].
  split; [reflexivity|]. split; [reflexivity|].
  destruct (failed_upsert_is_ignored Sample.bob Sample.env_upsert_refused
              Sample.late_delivery (Sample.refused "permission denied")
              late_delivery_filled eq_refl eq_refl)
    as (_ & _ & Ht & _).
  exact Ht.
Defined.

(** The specification's example: title "Late delivery", description
    "Order has not arrived", category Orders, no product. *)
Lemma no_product_witness :
  no_product_selected Sample.late_delivery
  /\ Forall (fun td =>
               TicketData.product_id td = None
               /\ TicketData.product_id td <> Some (js "none")
               /\ TicketData.category td = Orders
               /\ TicketData.status td = js "open")
       (inserts (m_trace (snd (submit (Some Sample.bob) Sample.env_ok
                                 Sample.late_delivery))))
  /\ exists td,
       inserts (m_trace (snd (submit (Some Sample.bob) Sample.env_ok
                                Sample.late_delivery))) = [td].
Proof.
  assert (Hn : no_product_selected Sample.late_delivery)
    by (left; reflexivity).
  split; [exact Hn|].
  destruct (no_product_is_null (Some Sample.bob) Sample.env_ok
              Sample.late_delivery Hn) as (Hall & Hex).
  split; [exact Hall|].
  apply Hex; [exact late_delivery_filled | discriminate].
Defined.

Lemma product_fetch_failure_witness :
  error (products_reply Sample.env_select_refused)
    = Some (Sample.refused "connection lost")
  /\ toasts (m_trace (snd (run fetchProducts Sample.env_select_refused
                             Sample.late_delivery))) = []
  /\ m_state (snd (run fetchProducts Sample.env_select_refused
                     Sample.late_delivery)) = Sample.late_delivery.
Proof.
  split; [reflexivity|].
  destruct (product_fetch_failure_is_silent Sample.env_select_refused
              Sample.late_delivery (Sample.refused "connection lost")
              eq_refl)
    as (_ & _ & Ht & _ & Hs & _).
  split; [exact Ht | exact Hs].
Defined.

End DialogClaims.

(** ** Properties of the list page *)

Module PageClaims.

Import Tickets PageFacts.

(** C4, as the code has it.  A failed ticket fetch shows the error
    notification and leaves the ticket list as it was before the fetch:
    the rendered list is empty when the list was empty before (as on the
    initial fetch, which renders the empty state), and otherwise the
    tickets fetched earlier stay rendered. *)
Theorem failed_fetch_keeps_list (env : Env) (s : State) (e : JsError) :
  error (tickets_reply env) = Some e ->
  let r := run fetchTickets env s in
  let s' := m_state (snd r) in
  fst r = Returned tt
  /\ toasts (m_trace (snd r)) = [load_failed_toast]
  /\ n_variant load_failed_toast = VariantDestructive
  /\ tickets s' = tickets s
  /\ loading s' = false
  /\ (selectedTicket s = None ->
      rendered_cards (render s') = List.map card (tickets s))
  /\ (tickets s = [] -> rendered_cards (render s') = [])
  /\ (s = initial ->
      render s' =
        ListPage {| open_counter := 0; closed_counter := 0;
                    body := EmptyState; dialog_open := false |}).
Proof.
  intros He r s'. subst s' r. unfold run.
  rewrite (fetchTickets_failed env _ e He).
  cbn [fst snd m_trace m_state tickets loading app].
  split_conj; try reflexivity.
  - intros Hs.
    rewrite rendered_cards_loaded; [reflexivity | exact Hs | reflexivity].
  - intros Ht. unfold render, rendered_cards.
    cbn [selectedTicket tickets loading].
    destruct (selectedTicket s); [reflexivity|].
    cbn [body]. now rewrite Ht.
  - intros Hs. now subst s.
Qed.

(** C4 as stated fails: when a re-fetch fails after a successful fetch,
    the tickets fetched before are still rendered. *)
Lemma failed_refetch_still_shows_tickets :
  let s' :=
    state_after fetchTickets Sample.env_select_refused
      Sample.page_loaded in
  error (tickets_reply Sample.env_select_refused)
    = Some (Sample.refused "connection lost")
  /\ toasts (trace_of fetchTickets Sample.env_select_refused
               Sample.page_loaded) = [load_failed_toast]
  /\ rendered_cards (render s') = List.map card Sample.rows
  /\ rendered_cards (render s') <> [].
Proof.
  repeat split. vm_compute. discriminate.
Qed.

(** C7.  After a fetch that returned the snapshot [rows] (possibly
    empty), the list page's open counter is the number of rows of the
    snapshot whose status is "open" and its closed counter the number
    whose status is "closed"; for the empty snapshot both are zero. *)
Theorem counters_match_snapshot (env : Env) (s : State) :
  error (tickets_reply env) = None ->
  selectedTicket s = None ->
  let rows := fetched_rows env in
  exists p,
    render (state_after fetchTickets env s) = ListPage p
    /\ open_counter p = count_status (js "open") rows
    /\ closed_counter p = count_status (js "closed") rows
    /\ (rows = [] ->
        open_counter p = 0 /\ closed_counter p = 0
        /\ body p = EmptyState).
Proof.
  intros He Hs rows. subst rows. unfold state_after, run.
  rewrite (fetchTickets_succeeded env _ He). cbn [snd m_state].
  rewrite render_list_page by exact Hs.
  eexists. split; [reflexivity|].
  cbn [open_counter closed_counter body tickets loading].
  split_conj; try reflexivity.
  intros H. rewrite H. now repeat split.
Qed.

Section NewestFirst.

(** The order on creation timestamps the backend sorts by. *)
Variable at_least_as_recent : jsstring -> jsstring -> Prop.

(** C8.  The fetch asks for the tickets ordered by [created_at],
    descending, and the page shows one card per fetched row in the
    fetched order; so when the reply is ordered newest first, the
    cards are. *)
Theorem rendered_newest_first (env : Env) (s : State) :
  error (tickets_reply env) = None ->
  selectedTicket s = None ->
  StronglySorted
    (fun a b => at_least_as_recent (TicketRow.created_at a)
                                   (TicketRow.created_at b))
    (fetched_rows env) ->
  let cards := rendered_cards (render (state_after fetchTickets env s)) in
  (exists rest, trace_of fetchTickets env s = Select tickets_query :: rest)
  /\ q_table tickets_query = js "tickets"
  /\ q_order tickets_query = Some (js "created_at", false)
  /\ cards = List.map card (fetched_rows env)
  /\ List.map card_key cards = List.map TicketRow.id (fetched_rows env)
  /\ StronglySorted
       (fun a b => at_least_as_recent (card_created_at a)
                                      (card_created_at b))
       cards.
Proof.
  intros He Hs Hsorted cards.
  assert (Hc : cards = List.map card (fetched_rows env)).
  { subst cards. unfold state_after, run.
    rewrite (fetchTickets_succeeded env _ He). cbn [snd m_state].
    now apply rendered_cards_loaded. }
  split_conj; try reflexivity.
  - apply fetchTickets_query_first.
  - exact Hc.
  - rewrite Hc, map_map. reflexivity.
  - rewrite Hc.
    apply (StronglySorted_map _ _
             (fun x y => at_least_as_recent (card_created_at x)
                                            (card_created_at y))).
    exact Hsorted.
Qed.

End NewestFirst.

(** Any status other than "open" and "closed" gets the outline badge
    that shows the status as it is. *)
Lemma getStatusBadge_fallback (status : jsstring) :
  status <> js "open" -> status <> js "closed" ->
  getStatusBadge status =
    {| b_variant := Some (js "outline"); b_className := VUndefined;
       b_children := status |}.
Proof.
  intros Ho Hc. unfold getStatusBadge.
  apply eqb_neq in Ho. apply eqb_neq in Hc. now rewrite Ho, Hc.
Qed.

(** A category that names neither a key of [colors] nor a property
    inherited from [Object.prototype] gets the gray badge. *)
Lemma getCategoryBadge_fallback (category : jsstring) :
  own_property colors category = None ->
  own_property Object_prototype category = None ->
  getCategoryBadge category =
    {| b_variant := None; b_className := gray; b_children := category |}.
Proof.
  intros Hc Hp. unfold getCategoryBadge, get. now rewrite Hc, Hp.
Qed.

(** C9, where the code departs from it.  The category "constructor" is
    none of Account, Orders and Other, yet its badge is not the gray
    one: the lookup in [colors] finds the inherited [constructor]
    property, which is truthy, so the fallback is not taken.  The badge
    is still built and still shows the raw category. *)
Theorem getCategoryBadge_inherited_property :
  js "constructor" <> js "Account"
  /\ js "constructor" <> js "Orders"
  /\ js "constructor" <> js "Other"
  /\ own_property colors (js "constructor") = None
  /\ b_className (getCategoryBadge (js "constructor"))
     = VFunction (js "Object")
  /\ b_className (getCategoryBadge (js "constructor")) <> gray
  /\ b_children (getCategoryBadge (js "constructor")) = js "constructor".
Proof.
  repeat split; try (vm_compute; discriminate).
Qed.

(** *** The statements above at the sample page *)

Lemma failed_fetch_witness :
  error (tickets_reply Sample.env_select_refused)
    = Some (Sample.refused "connection lost")
  /\ toasts (m_trace (snd (run fetchTickets Sample.env_select_refused
                             initial))) = [load_failed_toast]
  /\ rendered_cards
       (render (m_state (snd (run fetchTickets Sample.env_select_refused
                                initial)))) = [].
Proof.
  split; [reflexivity|].
  destruct (failed_fetch_keeps_list Sample.env_select_refused initial
              (Sample.refused "connection lost") eq_refl)
    as (_ & Ht & _ & _ & _ & _ & He & _).
  split; [exact Ht | exact (He eq_refl)].
Defined.

Lemma counters_witness :
  error (tickets_reply Sample.env_ok) = None
  /\ selectedTicket initial = None
  /\ exists p,
       render (state_after fetchTickets Sample.env_ok initial) = ListPage p
       /\ open_counter p = 1 /\ closed_counter p = 1.
Proof.
  split; [reflexivity|]. split; [reflexivity|].
  destruct (counters_match_snapshot Sample.env_ok initial eq_refl eq_refl)
    as (p & Hr & Ho & Hc & _).
  exists p. repeat split; assumption.
Defined.

Lemma sample_rows_newest_first :
  StronglySorted
    (fun a b => Sample.at_least_as_recent (TicketRow.created_at a)
                                          (TicketRow.created_at b))
    (fetched_rows Sample.env_ok).
Proof.
  repeat constructor.
Defined.

Lemma rendered_newest_first_witness :
  error (tickets_reply Sample.env_ok) = None
  /\ selectedTicket initial = None
  /\ StronglySorted
       (fun a b => Sample.at_least_as_recent (TicketRow.created_at a)
                                             (TicketRow.created_at b))
       (fetched_rows Sample.env_ok)
  /\ StronglySorted
       (fun a b => Sample.at_least_as_recent (card_created_at a)
                                             (card_created_at b))
       (rendered_cards
          (render (state_after fetchTickets Sample.env_ok initial))).
Proof.
  split; [reflexivity|]. split; [reflexivity|].
  split; [exact sample_rows_newest_first|].
  destruct (rendered_newest_first Sample.at_least_as_recent Sample.env_ok
              initial eq_refl eq_refl sample_rows_newest_first)
    as (_ & _ & _ & _ & _ & Hs).
  exact Hs.
Defined.

End PageClaims.

(** ** What [trim] removes and what it leaves *)

Section TrimFacts.

Lemma trimStart_split (s : jsstring) :
  exists w, s = w ++ trimStart s /\ forallb is_ws w = true.
Proof.
  induction s as [|c s (w & Hs & Hw)]; simpl.
  - now exists [].
  - destruct (is_ws c) eqn:Hc.
    + exists (c :: w). simpl. rewrite Hc, Hw. split; [|reflexivity].
      now rewrite <- Hs.
    + now exists [].
Qed.

Lemma forallb_rev (f : N -> bool) (l : list N) :
  forallb f l = true -> forallb f (rev l) = true.
Proof.
  rewrite !forallb_forall. intros H x Hx. apply H. now apply in_rev.
Qed.

Lemma trimEnd_split (s : jsstring) :
  exists w, s = trimEnd s ++ w /\ forallb is_ws w = true.
Proof.
  destruct (trimStart_split (rev s)) as (w & Hs & Hw).
  exists (rev w). split; [|now apply forallb_rev].
  unfold trimEnd. rewrite <- rev_app_distr, <- Hs. now rewrite rev_involutive.
Qed.

Lemma trimEnd_last (s : jsstring) (c d : N) (r : jsstring) :
  trimEnd s = c :: r -> is_ws (last (c :: r) d) = false.
Proof.
  unfold trimEnd. intros H.
  pose proof (trimStart_head (rev s)) as Hh.
  destruct (trimStart (rev s)) as [|x u]; [discriminate H|].
  rewrite <- H. simpl rev. now rewrite last_last.
Qed.

Lemma trim_head (s : jsstring) (c : N) (r : jsstring) :
  trim s = c :: r -> is_ws c = false.
Proof.
  unfold trim. intros H.
  destruct (trimEnd_split (trimStart s)) as (w & Hs & _).
  pose proof (trimStart_head s) as Hh.
  rewrite H in Hs. rewrite Hs in Hh. exact Hh.
Qed.

Lemma trim_not_padded (s : jsstring) : padded (trim s) = false.
Proof.
  destruct (trim s) as [|c r] eqn:E; [reflexivity|].
  unfold padded. rewrite (trim_head s c r E).
  unfold trim in E. now rewrite (trimEnd_last _ c c r E).
Qed.

Lemma trimStart_not_padded (s : jsstring) :
  padded s = false -> trimStart s = s.
Proof.
  destruct s as [|c s]; [reflexivity|]. unfold padded.
  intros H. apply orb_false_iff in H as [Hc _]. simpl. now rewrite Hc.
Qed.

Lemma trimEnd_not_padded (s : jsstring) :
  padded s = false -> trimEnd s = s.
Proof.
  destruct s as [|c s]; [reflexivity|]. unfold padded.
  intros H. apply orb_false_iff in H as [_ Hl].
  unfold trimEnd.
  destruct (exists_last (l := c :: s)) as (u & x & Hu); [discriminate|].
  rewrite Hu in Hl |- *. rewrite last_last in Hl.
  rewrite rev_app_distr. simpl. rewrite Hl. simpl.
  now rewrite rev_involutive.
Qed.

(** X1.  [trim] splits a string into a run of white space, the result,
    and another run of white space; the result neither begins nor ends
    with white space, and trimming it again changes nothing. *)
Theorem trim_characterised (s : jsstring) :
  (exists w1 w2,
      s = w1 ++ trim s ++ w2
      /\ forallb is_ws w1 = true /\ forallb is_ws w2 = true)
  /\ padded (trim s) = false
  /\ trim (trim s) = trim s.
Proof.
  split_conj.
  - destruct (trimStart_split s) as (w1 & H1 & Hw1).
    destruct (trimEnd_split (trimStart s)) as (w2 & H2 & Hw2).
    exists w1, w2. split_conj; try assumption.
    unfold trim. now rewrite <- H2.
  - apply trim_not_padded.
  - pose proof (trim_not_padded s) as Hp.
    unfold trim at 1. rewrite (trimStart_not_padded _ Hp).
    now apply trimEnd_not_padded.
Qed.

End TrimFacts.

(** ** Further properties of the creation dialog *)

Module DialogExtras.

Import CreateTicketDialog DialogFacts.

(** The four ways a submission can go. *)
Inductive SubmitCase (user : option AuthUser) (env : Env) (s : State)
  : Prop :=
| CaseRejected :
    field_missing s ->
    submit user env s =
      (Returned tt,
       {| m_state := s;
          m_trace := [PreventDefault; Toast validation_toast];
          m_clock_reads := 0; m_uuid_calls := 0 |}) ->
    SubmitCase user env s
| CaseAnonymous :
    fields_filled s -> user = None ->
    submit user env s =
      (Returned tt,
       {| m_state := s;
          m_trace := [PreventDefault; Toast login_toast];
          m_clock_reads := 0; m_uuid_calls := 0 |}) ->
    SubmitCase user env s
| CaseRefused (u : AuthUser) (e : JsError) :
    fields_filled s -> user = Some u ->
    error (insert_reply env (ticketData_of env s)) = Some e ->
    submit user env s =
      (Returned tt,
       {| m_state :=
            {| title := title s; description := description s;
               category := category s; productId := productId s;
               products := products s; loading := false |};
          m_trace :=
            [PreventDefault;
             ConsoleLog (js "Creating ticket with data:");
             InsertTicket (ticketData_of env s);
             ConsoleError (js "Ticket creation error:") e;
             ConsoleError (js "Error creating ticket:") e;
             Toast (failure_toast e)];
          m_clock_reads := 2; m_uuid_calls := 2 |}) ->
    SubmitCase user env s
| CaseCreated (u : AuthUser) :
    fields_filled s -> user = Some u ->
    error (insert_reply env (ticketData_of env s)) = None ->
    submit user env s =
      (Returned tt,
       {| m_state :=
            {| title := js ""; description := js ""; category := CatUnset;
               productId := js ""; products := products s;
               loading := false |};
          m_trace :=
            [PreventDefault;
             ConsoleLog (js "Creating ticket with data:");
             InsertTicket (ticketData_of env s);
             ConsoleLog (js "Ticket created successfully:");
             UpsertUser (userData_of (randomUUID env 1) u) (js "id") true;
             Toast success_toast;
             OnOpenChange false;
             OnTicketCreated];
          m_clock_reads := 2; m_uuid_calls := 2 |}) ->
    SubmitCase user env s.

Lemma submit_cases (user : option AuthUser) (env : Env) (s : State) :
  SubmitCase user env s.
Proof.
  destruct (filled_or_missing s) as [Hf | Hm].
  - destruct user as [u|].
    + destruct (error (insert_reply env (ticketData_of env s))) as [e|]
        eqn:He.
      * apply (CaseRefused (Some u) env s u e Hf eq_refl He).
        now apply submit_insert_failed.
      * apply (CaseCreated (Some u) env s u Hf eq_refl He).
        now apply submit_created.
    + apply (CaseAnonymous None env s Hf eq_refl).
      now apply submit_anonymous.
  - apply (CaseRejected user env s Hm). now apply submit_rejected.
Qed.

Lemma fetchProducts_succeeded (env : Env) (s : State) :
  error (products_reply env) = None ->
  run fetchProducts env s =
    (Returned tt,
     {| m_state :=
          {| title := title s; description := description s;
             category := category s; productId := productId s;
             products :=
               match data (products_reply env) with
               | Some d => d
               | None => []
               end;
             loading := loading s |};
        m_trace := [Select products_query];
        m_clock_reads := 0; m_uuid_calls := 0 |}).
Proof.
  intros He.
  unfold run, fetchProducts, try_catch, try_catch_finally, bind, request,
    setProducts, modify, emit, throw, ret.
  rewrite He. reflexivity.
Qed.

Lemma category_str_injective (c d : Category) :
  category_str c = category_str d -> c = d.
Proof. destruct c, d; intros H; try reflexivity; discriminate H. Qed.


Lemma fields_filled_ext (s t : State) :
  title t = title s -> description t = description s ->
  category t = category s ->
  fields_filled s -> fields_filled t.
Proof.
  unfold fields_filled. intros -> -> ->. exact (fun H => H).
Qed.

(** X2.  [handleCategoryChange] stores a value only when it is one of the
    category strings, and then stores exactly that category; any other
    value changes nothing.  It touches no other field and neither
    notifies nor calls the backend. *)
Theorem handleCategoryChange_guards (value : jsstring) (env : Env)
    (s : State) :
  let r := run (handleCategoryChange value) env s in
  let s' := m_state (snd r) in
  fst r = Returned tt
  /\ m_trace (snd r) = []
  /\ title s' = title s /\ description s' = description s
  /\ productId s' = productId s /\ products s' = products s
  /\ loading s' = loading s
  /\ ((exists c, value = category_str c /\ category s' = c)
      \/ ((forall c, value <> category_str c) /\ s' = s)).
Proof.
  intros r s'. subst s' r. unfold run, handleCategoryChange.
  destruct (eqb value (js "")) eqn:E0;
    [apply eqb_eq in E0; subst value;
     split_conj; try reflexivity; left; now exists CatUnset|].
  destruct (eqb value (js "Account")) eqn:E1;
    [apply eqb_eq in E1; subst value;
     split_conj; try reflexivity; left; now exists Account|].
  destruct (eqb value (js "Orders")) eqn:E2;
    [apply eqb_eq in E2; subst value;
     split_conj; try reflexivity; left; now exists Orders|].
  destruct (eqb value (js "Other")) eqn:E3;
    [apply eqb_eq in E3; subst value;
     split_conj; try reflexivity; left; now exists Other|].
  apply eqb_neq in E0, E1, E2, E3.
  split_conj; try reflexivity.
  right. split; [intros c; destruct c; assumption|].
  now destruct s.
Qed.

(** X3.  After a product other than the "none" item is chosen in the
    selector, a filled-in form submitted by an actor sends one record
    whose product identifier is that product's. *)
Theorem chosen_product_is_sent (u : AuthUser) (env env' : Env) (s : State)
    (value : jsstring) :
  value <> js "none" -> value <> js "" -> fields_filled s ->
  let s1 := state_after (handleProductChange value) env s in
  productId s1 = value
  /\ exists td,
       inserts (m_trace (snd (submit (Some u) env' s1))) = [td]
       /\ TicketData.product_id td = Some value
       /\ TicketData.title td = trim (title s)
       /\ TicketData.category td = category s.
Proof.
  intros Hn He Hf s1.
  assert (Hp : productId s1 = value).
  { subst s1. unfold state_after, run, handleProductChange, setProductId,
      modify. cbn [snd m_state productId].
    apply eqb_neq in Hn. now rewrite Hn. }
  split; [exact Hp|].
  assert (Hf1 : fields_filled s1)
    by (apply (fields_filled_ext s s1); try reflexivity; exact Hf).
  exists (ticketData_of env' s1). split; [now apply submit_inserts|].
  unfold ticketData_of. cbn [TicketData.product_id TicketData.title
    TicketData.category].
  rewrite Hp. apply truthy_true in He. rewrite He. now repeat split.
Qed.

(** X4.  A title or description made of white space only counts as
    missing: the submission is answered by the validation notification,
    sends nothing and leaves the form as typed. *)
Theorem blank_field_is_rejected (user : option AuthUser) (env : Env)
    (s : State) :
  forallb is_ws (title s) = true \/ forallb is_ws (description s) = true ->
  let r := submit user env s in
  toasts (m_trace (snd r)) = [validation_toast]
  /\ filter is_request (m_trace (snd r)) = []
  /\ m_state (snd r) = s.
Proof.
  intros H r. subst r.
  assert (Hm : field_missing s).
  { destruct H as [H | H]; [left | right; left]; now apply trim_all_ws. }
  rewrite (submit_rejected user env s Hm). now repeat split.
Qed.

(** X5.  Every ticket record a submission sends is well formed: title
    and description are the trimmed inputs, non-empty and without white
    space at either end, a category is set, the status is "open", and the
    two identifiers are the two generated UUIDs. *)
Theorem inserted_record_is_well_formed (user : option AuthUser) (env : Env)
    (s : State) :
  Forall (fun td =>
            TicketData.title td = trim (title s)
            /\ TicketData.title td <> []
            /\ padded (TicketData.title td) = false
            /\ TicketData.description td = trim (description s)
            /\ TicketData.description td <> []
            /\ padded (TicketData.description td) = false
            /\ TicketData.category td <> CatUnset
            /\ TicketData.status td = js "open"
            /\ TicketData.id td = randomUUID env 0
            /\ TicketData.user_id td = randomUUID env 1)
         (inserts (m_trace (snd (submit user env s)))).
Proof.
  destruct (submit_cases user env s) as
    [Hm Hr | Hf Hu Hr | u e Hf Hu He Hr | u Hf Hu He Hr];
    rewrite Hr; cbn [snd m_trace inserts]; constructor;
    try constructor;
    destruct Hf as (Ht & Hd & Hc);
    unfold ticketData_of;
    cbn [TicketData.title TicketData.description TicketData.category
         TicketData.status TicketData.id TicketData.user_id];
    split_conj; try reflexivity; try assumption;
    apply trim_not_padded.
Qed.

(** X6.  When the insert is accepted, exactly one user record is upserted,
    keyed by the identifier stored as the ticket's [user_id]; it carries
    the actor's username, the actor's e-mail and role when these are
    non-empty, and otherwise "<username>@local.app" and "customer"; e-mail
    and role are never empty. *)
Theorem upsert_matches_ticket (u : AuthUser) (env : Env) (s : State) :
  fields_filled s ->
  error (insert_reply env (ticketData_of env s)) = None ->
  let tr := m_trace (snd (submit (Some u) env s)) in
  exists td ud,
    inserts tr = [td] /\ upserts tr = [ud]
    /\ UserData.id ud = TicketData.user_id td
    /\ UserData.username ud = username u
    /\ UserData.email ud <> [] /\ UserData.role ud <> []
    /\ (forall e, email u = Some e -> e <> [] -> UserData.email ud = e)
    /\ (email u = None \/ email u = Some [] ->
        UserData.email ud = username u ++ js "@local.app")
    /\ (forall r, role u = Some r -> r <> [] -> UserData.role ud = r)
    /\ (role u = None \/ role u = Some [] ->
        UserData.role ud = js "customer").
Proof.
  intros Hf Hi tr. subst tr.
  rewrite (submit_created u env s Hf Hi). cbn [snd m_trace].
  exists (ticketData_of env s), (userData_of (randomUUID env 1) u).
  unfold userData_of, ticketData_of.
  cbn [inserts upserts UserData.id UserData.username UserData.email
       UserData.role TicketData.user_id].
  split_conj; try reflexivity.
  - destruct (email u) as [[|c e]|]; cbn; try discriminate;
      destruct (username u); discriminate.
  - destruct (role u) as [[|c e]|]; cbn; discriminate.
  - intros e He Hne. rewrite He. cbn [opt_or_else].
    now apply or_else_truthy.
  - intros [He | He]; rewrite He; reflexivity.
  - intros r Hr Hne. rewrite Hr. cbn [opt_or_else].
    now apply or_else_truthy.
  - intros [Hr | Hr]; rewrite Hr; reflexivity.
Qed.


(** X8.  When the product fetch succeeds, the product list becomes the
    reply's rows (none when the reply has no data), the selector offers
    "none" followed by their identifiers in the reply's order, nothing is
    shown to the user, and what was typed is kept.  The one request asks
    for the available products ordered by name. *)
Theorem fetchProducts_fills_selector (env : Env) (s : State) :
  error (products_reply env) = None ->
  let r := run fetchProducts env s in
  let s' := m_state (snd r) in
  let offer :=
    match data (products_reply env) with Some d => d | None => [] end in
  fst r = Returned tt
  /\ products s' = offer
  /\ product_options s' = js "none" :: List.map p_id offer
  /\ toasts (m_trace (snd r)) = []
  /\ selects (m_trace (snd r)) = [products_query]
  /\ q_eq products_query = [(js "available", true)]
  /\ q_order products_query = Some (js "name", true)
  /\ title s' = title s /\ description s' = description s
  /\ category s' = category s /\ productId s' = productId s
  /\ loading s' = loading s.
Proof.
  intros He r s' offer. subst offer s' r.
  rewrite (fetchProducts_succeeded env s He). now split_conj.
Qed.

Import DialogSession.



(** *** The statements above at the sample data *)

Lemma chosen_product_witness :
  p_id Sample2.widget <> js "none"
  /\ p_id Sample2.widget <> js ""
  /\ fields_filled Sample.late_delivery
  /\ exists td,
       inserts
         (m_trace
            (snd (submit (Some Sample2.alice) Sample2.env_products
                    (state_after (handleProductChange (p_id Sample2.widget))
                       Sample.env_ok Sample.late_delivery)))) = [td]
       /\ TicketData.product_id td = Some (p_id Sample2.widget).
Proof.
  assert (H1 : p_id Sample2.widget <> js "none")
    by (vm_compute; discriminate).
  assert (H2 : p_id Sample2.widget <> js "")
    by (vm_compute; discriminate).
  assert (H3 : fields_filled Sample.late_delivery)
    by (unfold fields_filled; repeat split; vm_compute; discriminate).
  split_conj; try assumption.
  destruct (chosen_product_is_sent Sample2.alice Sample.env_ok
              Sample2.env_products Sample.late_delivery
              (p_id Sample2.widget) H1 H2 H3) as (_ & td & Hi & Hp & _).
  exists td. now split.
Defined.

Lemma blank_field_witness :
  (forallb is_ws (title Sample2.blank_title) = true
   \/ forallb is_ws (description Sample2.blank_title) = true)
  /\ toasts (m_trace (snd (submit (Some Sample.bob) Sample.env_ok
                             Sample2.blank_title))) = [validation_toast]
  /\ filter is_request
       (m_trace (snd (submit (Some Sample.bob) Sample.env_ok
                        Sample2.blank_title))) = [].
Proof.
  assert (H : forallb is_ws (title Sample2.blank_title) = true
              \/ forallb is_ws (description Sample2.blank_title) = true)
    by (left; reflexivity).
  split; [exact H|].
  destruct (blank_field_is_rejected (Some Sample.bob) Sample.env_ok
              Sample2.blank_title H) as (Ht & Hr & _).
  now split.
Defined.

Lemma upsert_witness :
  fields_filled Sample.late_delivery
  /\ error (insert_reply Sample.env_ok
              (ticketData_of Sample.env_ok Sample.late_delivery)) = None
  /\ exists td ud,
       inserts (m_trace (snd (submit (Some Sample2.alice) Sample.env_ok
                                Sample.late_delivery))) = [td]
       /\ upserts (m_trace (snd (submit (Some Sample2.alice) Sample.env_ok
                                   Sample.late_delivery))) = [ud]
       /\ UserData.id ud = TicketData.user_id td
       /\ UserData.email ud = js "alice@example.org"
       /\ UserData.role ud = js "admin".
Proof.
  assert (H3 : fields_filled Sample.late_delivery)
    by (unfold fields_filled; repeat split; vm_compute; discriminate).
  split; [exact H3|]. split; [reflexivity|].
  destruct (upsert_matches_ticket Sample2.alice Sample.env_ok
              Sample.late_delivery H3 eq_refl)
    as (td & ud & Hi & Hu & Hid & _ & _ & _ & He & _ & Hr & _).
  exists td, ud. split_conj; try assumption.
  - apply (He (js "alice@example.org") eq_refl). vm_compute. discriminate.
  - apply (Hr (js "admin") eq_refl). vm_compute. discriminate.
Defined.

Lemma fetchProducts_witness :
  error (products_reply Sample2.env_products) = None
  /\ product_options
       (m_state (snd (run fetchProducts Sample2.env_products initial)))
     = [js "none"; p_id Sample2.gadget; p_id Sample2.widget].
Proof.
  split; [reflexivity|].
  destruct (fetchProducts_fills_selector Sample2.env_products initial
              eq_refl) as (_ & _ & Ho & _).
  exact Ho.
Defined.


End DialogExtras.

(** ** Further properties of the list page *)

Module PageExtras.

Import Tickets PageFacts PageSession.


(** What one fetch does to the page, whatever the reply. *)
Lemma fetchTickets_run (env : Env) (s : State) :
  fst (run fetchTickets env s) = Returned tt
  /\ loading (state_after fetchTickets env s) = false
  /\ selectedTicket (state_after fetchTickets env s) = selectedTicket s
  /\ showCreateDialog (state_after fetchTickets env s) = showCreateDialog s
  /\ selects (trace_of fetchTickets env s) = [tickets_query]
  /\ ((error (tickets_reply env) = None
       /\ tickets (state_after fetchTickets env s) = fetched_rows env
       /\ toasts (trace_of fetchTickets env s) = [])
      \/ (error (tickets_reply env) <> None
          /\ tickets (state_after fetchTickets env s) = tickets s
          /\ toasts (trace_of fetchTickets env s) = [load_failed_toast])).
Proof.
  unfold state_after, trace_of, run.
  destruct (error (tickets_reply env)) as [e|] eqn:He.
  - rewrite (fetchTickets_failed env _ e He).
    split_conj; try reflexivity. right. now repeat split.
  - rewrite (fetchTickets_succeeded env _ He).
    split_conj; try reflexivity. left. now repeat split.
Qed.

Lemma count_status_partition (rows : list TicketRow.t) :
  count_status (js "open") rows + count_status (js "closed") rows
  + List.length
      (filter (fun t => negb (eqb (TicketRow.status t) (js "open"))
                        && negb (eqb (TicketRow.status t) (js "closed")))
         rows)
  = List.length rows.
Proof.
  induction rows as [|r rows IH]; [reflexivity|].
  cbn [count_status filter List.length].
  destruct (eqb (TicketRow.status r) (js "open")) eqn:Eo.
  - apply eqb_eq in Eo. rewrite Eo.
    replace (eqb (js "open") (js "closed")) with false by reflexivity.
    cbn [negb andb]. lia.
  - destruct (eqb (TicketRow.status r) (js "closed")) eqn:Ec;
      cbn [negb andb List.length]; lia.
Qed.

(** X10.  A successful fetch replaces the list: whatever an earlier fetch
    did, the tickets shown afterwards are exactly the rows of the latest
    accepted reply (none when it carries no data), and the loading flag
    is cleared. *)
Theorem fetch_replaces_list (env1 env2 : Env) (s : State) :
  error (tickets_reply env2) = None ->
  let s1 := state_after fetchTickets env1 s in
  let s2 := state_after fetchTickets env2 s1 in
  tickets s2 = fetched_rows env2
  /\ loading s2 = false
  /\ (data (tickets_reply env2) = None -> tickets s2 = [])
  /\ (selectedTicket s = None ->
      rendered_cards (render s2) = List.map card (fetched_rows env2)).
Proof.
  intros He s1 s2.
  destruct (fetchTickets_run env1 s) as (_ & _ & Hs1 & _).
  destruct (fetchTickets_run env2 s1) as (_ & Hl & Hs2 & _ & _ & H).
  fold s1 in Hs1. fold s2 in Hl, Hs2, H.
  destruct H as [(_ & Ht & _) | (Hne & _)]; [|contradiction].
  split_conj; try assumption.
  - intros Hd. rewrite Ht. unfold fetched_rows. now rewrite Hd.
  - intros Hs. rewrite rendered_cards_loaded; try assumption.
    + now rewrite Ht.
    + now rewrite Hs2, Hs1.
Qed.

(** X11.  The two counters never count a ticket twice: together with the
    number of tickets whose status is neither "open" nor "closed" they
    add up to the number of tickets in the list. *)
Theorem counters_partition (s : State) :
  selectedTicket s = None ->
  exists p,
    render s = ListPage p
    /\ open_counter p + closed_counter p
       + List.length
           (filter
              (fun t => negb (eqb (TicketRow.status t) (js "open"))
                        && negb (eqb (TicketRow.status t) (js "closed")))
              (tickets s))
       = List.length (tickets s)
    /\ open_counter p + closed_counter p <= List.length (tickets s).
Proof.
  intros Hs. rewrite (render_list_page s Hs).
  eexists. split; [reflexivity|].
  cbn [open_counter closed_counter].
  pose proof (count_status_partition (tickets s)) as H.
  split; [exact H | lia].
Qed.

(** X12.  The status badge tells the three cases apart, by exact match:
    the green badge is given for "open" only, the destructive variant for
    "closed" only, the outline variant for everything else; the outline
    badge shows the status as received. *)
Theorem getStatusBadge_cases (status : jsstring) :
  (b_className (getStatusBadge status)
     = VString (js "bg-green-500 text-white") <-> status = js "open")
  /\ (b_variant (getStatusBadge status) = Some (js "destructive")
      <-> status = js "closed")
  /\ (b_variant (getStatusBadge status) = Some (js "outline")
      <-> status <> js "open" /\ status <> js "closed")
  /\ (b_children (getStatusBadge status) = status
      \/ status = js "open" \/ status = js "closed").
Proof.
  unfold getStatusBadge.
  destruct (eqb status (js "open")) eqn:Eo.
  - apply eqb_eq in Eo. subst status. cbn [b_className b_variant b_children].
    split_conj.
    + split; reflexivity.
    + split; intros H; vm_compute in H; discriminate H.
    + split; [intros H; discriminate H | intros [H _]; now contradiction H].
    + right. now left.
  - destruct (eqb status (js "closed")) eqn:Ec.
    + apply eqb_eq in Ec. subst status.
      cbn [b_className b_variant b_children].
      split_conj.
      * split; intros H; vm_compute in H; discriminate H.
      * split; reflexivity.
      * split; [intros H; vm_compute in H; discriminate H
               | intros [_ H]; now contradiction H].
      * right. now right.
    + apply eqb_neq in Eo, Ec. cbn [b_className b_variant b_children].
      split_conj.
      * split; [intros H; discriminate H | intros H; contradiction].
      * split; [intros H; vm_compute in H; discriminate H
               | intros H; contradiction].
      * split; [intros _; now split | reflexivity].
      * now left.
Qed.


(** X14.  Opening a ticket shows its details and going back shows the
    list again exactly as it was; neither step calls the backend, so going
    back does not reload the list. *)
Theorem select_then_back (env1 env2 : Env) (s : State) (t : TicketRow.t) :
  selectedTicket s = None ->
  let s1 := step s (CardClicked t, env1) in
  let s2 := step s1 (Back, env2) in
  render s1 = TicketDetails t
  /\ s2 = s
  /\ render s2 = render s
  /\ session_trace [(CardClicked t, env1); (Back, env2)] s = [].
Proof.
  intros Hs s1 s2.
  assert (H2 : s2 = s).
  { subst s2 s1. destruct s as [tk sel dlg ld]. cbn in Hs. now subst sel. }
  split_conj; try reflexivity; try assumption. now rewrite H2.
Qed.

(** X15.  A refresh requested from the details view reloads the list but
    not the ticket on display: the details view keeps showing the row that
    was clicked, whatever the reply. *)
Theorem details_survive_refresh (env1 env2 : Env) (s : State)
    (t : TicketRow.t) :
  let s1 := step s (CardClicked t, env1) in
  let s2 := step s1 (Updated, env2) in
  render s2 = TicketDetails t
  /\ selectedTicket s2 = Some t
  /\ selects (trace_of (handler Updated) env2 s1) = [tickets_query]
  /\ (error (tickets_reply env2) = None /\ tickets s2 = fetched_rows env2
      \/ error (tickets_reply env2) <> None /\ tickets s2 = tickets s).
Proof.
  intros s1 s2. subst s2. unfold step at 1. cbn [fst snd handler].
  destruct (fetchTickets_run env2 s1) as (_ & _ & Hs & _ & Hq & H).
  assert (Hsel : selectedTicket (state_after fetchTickets env2 s1) = Some t)
    by (rewrite Hs; reflexivity).
  split_conj; try assumption.
  - unfold render. now rewrite Hsel.
  - destruct H as [(He & Ht & _) | (He & Ht & _)]; [left | right];
      split; assumption.
Qed.



(** X17.  Creation and list together: when a submission succeeds and the
    page's reload succeeds too, delivering the dialog's callbacks to the
    page closes the dialog, issues one list query, replaces the list by
    the reply's rows and shows no further notification. *)
Theorem creation_refreshes_page (u : AuthUser) (env penv : Env)
    (s : CreateTicketDialog.State) (p : State) :
  fields_filled s ->
  error (insert_reply env (CreateTicketDialog.ticketData_of env s)) = None ->
  error (tickets_reply penv) = None ->
  let tr := m_trace (snd (CreateTicketDialog.submit (Some u) env s)) in
  let r := run (deliver tr) penv p in
  fst r = Returned tt
  /\ showCreateDialog (m_state (snd r)) = false
  /\ tickets (m_state (snd r)) = fetched_rows penv
  /\ loading (m_state (snd r)) = false
  /\ selectedTicket (m_state (snd r)) = selectedTicket p
  /\ selects (m_trace (snd r)) = [tickets_query]
  /\ toasts (m_trace (snd r)) = [].
Proof.
  intros Hf Hi Hp tr r. subst r tr.
  rewrite (DialogFacts.submit_created u env s Hf Hi).
  cbn [snd m_trace]. unfold run.
  cbn [deliver dialog_callback]. unfold bind, ret, setShowCreateDialog,
    modify.
  rewrite (fetchTickets_succeeded penv _ Hp).
  now split_conj.
Qed.

(** X18.  A submission that is rejected, or whose insert is refused,
    calls neither callback: delivered to the page, its effects change
    nothing there and cause no reload. *)
Theorem failed_submission_leaves_page (user : option AuthUser)
    (env penv : Env) (s : CreateTicketDialog.State) (p : State) :
  field_missing s \/ user = None
  \/ (exists e,
        error (insert_reply env (CreateTicketDialog.ticketData_of env s))
        = Some e) ->
  let tr := m_trace (snd (CreateTicketDialog.submit user env s)) in
  run (deliver tr) penv p =
    (Returned tt,
     {| m_state := p; m_trace := []; m_clock_reads := 0;
        m_uuid_calls := 0 |}).
Proof.
  intros H tr. subst tr.
  destruct (DialogExtras.submit_cases user env s) as
    [Hm Hr | Hf Hu Hr | u e Hf Hu He Hr | u Hf Hu He Hr];
    rewrite Hr; try reflexivity.
  exfalso. destruct H as [Hm | [Hn | (e & He')]].
  - destruct Hf as (Ht & Hd & Hc).
    destruct Hm as [Hm | [Hm | Hm]]; contradiction.
  - congruence.
  - congruence.
Qed.

(** *** The statements above at the sample data *)

Lemma fetch_replaces_witness :
  error (tickets_reply Sample2.env_products) = None
  /\ tickets
       (state_after fetchTickets Sample2.env_products
          (state_after fetchTickets Sample.env_ok initial))
     = fetched_rows Sample2.env_products.
Proof.
  split; [reflexivity|].
  destruct (fetch_replaces_list Sample.env_ok Sample2.env_products initial
              eq_refl) as (Ht & _).
  exact Ht.
Defined.

Lemma counters_partition_witness :
  selectedTicket
    (state_after fetchTickets Sample2.env_products Sample.page_loaded)
  = None
  /\ exists p,
       render (state_after fetchTickets Sample2.env_products
                 Sample.page_loaded) = ListPage p
       /\ open_counter p + closed_counter p
          <= List.length
               (tickets (state_after fetchTickets Sample2.env_products
                           Sample.page_loaded)).
Proof.
  split; [reflexivity|].
  destruct (counters_partition
              (state_after fetchTickets Sample2.env_products
                 Sample.page_loaded) eq_refl) as (p & Hr & _ & Hle).
  exists p. now split.
Defined.

Lemma select_then_back_witness :
  selectedTicket Sample.page_loaded = None
  /\ step (step Sample.page_loaded
             (CardClicked (Sample.row "t2" "open" "2026-01-02T00:00:00+00:00"),
              Sample.env_ok))
       (Back, Sample.env_ok)
     = Sample.page_loaded.
Proof.
  split; [reflexivity|].
  destruct (select_then_back Sample.env_ok Sample.env_ok Sample.page_loaded
              (Sample.row "t2" "open" "2026-01-02T00:00:00+00:00") eq_refl)
    as (_ & Hs & _).
  exact Hs.
Defined.

Lemma creation_refreshes_witness :
  fields_filled Sample.late_delivery
  /\ error (insert_reply Sample.env_ok
              (CreateTicketDialog.ticketData_of Sample.env_ok
                 Sample.late_delivery)) = None
  /\ error (tickets_reply Sample2.env_products) = None
  /\ tickets
       (m_state
          (snd (run (deliver
                       (m_trace
                          (snd (CreateTicketDialog.submit (Some Sample.bob)
                                  Sample.env_ok Sample.late_delivery))))
                  Sample2.env_products Sample.page_loaded)))
     = fetched_rows Sample2.env_products.
Proof.
  assert (H3 : fields_filled Sample.late_delivery)
    by (unfold fields_filled; repeat split; vm_compute; discriminate).
  split; [exact H3|]. split; [reflexivity|]. split; [reflexivity|].
  destruct (creation_refreshes_page Sample.bob Sample.env_ok
              Sample2.env_products Sample.late_delivery Sample.page_loaded
              H3 eq_refl eq_refl) as (_ & _ & Ht & _).
  exact Ht.
Defined.

Lemma failed_submission_witness :
  (field_missing Sample2.blank_title \/ Some Sample.bob = None
   \/ (exists e,
         error (insert_reply Sample.env_ok
                  (CreateTicketDialog.ticketData_of Sample.env_ok
                     Sample2.blank_title)) = Some e))
  /\ m_state
       (snd (run (deliver
                    (m_trace
                       (snd (CreateTicketDialog.submit (Some Sample.bob)
                               Sample.env_ok Sample2.blank_title))))
               Sample.env_ok Sample.page_loaded))
     = Sample.page_loaded.
Proof.
  assert (H : field_missing Sample2.blank_title \/ Some Sample.bob = None
              \/ (exists e,
                    error (insert_reply Sample.env_ok
                             (CreateTicketDialog.ticketData_of Sample.env_ok
                                Sample2.blank_title)) = Some e))
    by (left; left; reflexivity).
  split; [exact H|].
  now rewrite (failed_submission_leaves_page (Some Sample.bob) Sample.env_ok
                 Sample.env_ok Sample2.blank_title Sample.page_loaded H).
Defined.

End PageExtras.
